(** * The product-card generation store of the demo front end

    A shallow embedding of [frontend/demo/lib/stores.ts]: the helpers that
    derive a product name and a price from the analysis text, the request
    builder of the API client, and the three actions of the zustand store.

    Conventions of the embedding.
    - A JavaScript string is a Rocq [string]; [toLowerCase] and
      [toUpperCase] are the ASCII case mappings and leave every other
      character alone.  They are the mappings of JavaScript on strings of
      ASCII characters; a statement that fixes a case-mapped result is
      made for such strings ([isAscii]).
    - [Math.random()] and [Date.now()] are inputs of the functions that
      read them: a rational [u] with [0 <= u < 1] and an integer number of
      milliseconds.
    - A value that may be [null] or [undefined] at run time is an [option].
    - [generateProductCard] is an [async] function.  It touches the store
      twice: synchronously when it is called, and once more when the
      awaited API call has settled.  The two steps are separate functions,
      so that other actions may run on the store in between. *)

From Stdlib Require Import Bool List ZArith QArith Qround Lia.
From Stdlib Require Import Ascii String DecimalString DecimalZ.
Import ListNotations.

#[local] Open Scope string_scope.
#[local] Open Scope Z_scope.

(** ** JavaScript string and array primitives used by the store *)

Module JS.

(** [c.toLowerCase()] on one ASCII character. *)
Definition lowerChar (c : ascii) : ascii :=
  let n := nat_of_ascii c in
  if (Nat.leb 65 n && Nat.leb n 90)%bool then ascii_of_nat (n + 32) else c.

(** [c.toUpperCase()] on one ASCII character. *)
Definition upperChar (c : ascii) : ascii :=
  let n := nat_of_ascii c in
  if (Nat.leb 97 n && Nat.leb n 122)%bool then ascii_of_nat (n - 32) else c.

Fixpoint mapChars (f : ascii -> ascii) (s : string) : string :=
  match s with
  | EmptyString => EmptyString
  | String c s' => String (f c) (mapChars f s')
  end.

(** [s.toLowerCase()] *)
Definition toLowerCase (s : string) : string := mapChars lowerChar s.

(** [s.toUpperCase()] *)
Definition toUpperCase (s : string) : string := mapChars upperChar s.

(** [s.startsWith(t)] *)
Fixpoint startsWith (s t : string) {struct t} : bool :=
  match t, s with
  | EmptyString, _ => true
  | String _ _, EmptyString => false
  | String b t', String a s' => (Ascii.eqb a b && startsWith s' t')%bool
  end.

(** [s.includes(t)]: [t] occurs in [s] as a contiguous substring. *)
Fixpoint includes (s t : string) : bool :=
  (startsWith s t ||
   match s with
   | EmptyString => false
   | String _ s' => includes s' t
   end)%bool.

(** [s.split(sep)] for a separator of one character.  The result is
    never the empty array: a string without separator gives itself. *)
Fixpoint split (sep : ascii) (s : string) : list string :=
  match s with
  | EmptyString => [EmptyString]
  | String c s' =>
      if Ascii.eqb c sep then EmptyString :: split sep s'
      else match split sep s' with
           | piece :: rest => String c piece :: rest
           | [] => [String c EmptyString]
           end
  end.

(** [s.charAt(0)]: the first character as a string, or the empty string. *)
Definition charAt0 (s : string) : string :=
  match s with
  | EmptyString => EmptyString
  | String c _ => String c EmptyString
  end.

(** [s.slice(1)]: everything after the first character. *)
Definition slice1 (s : string) : string :=
  match s with
  | EmptyString => EmptyString
  | String _ s' => s'
  end.

(** [xs.slice(0, n)] on an array. *)
Definition sliceTo {A : Type} (n : nat) (xs : list A) : list A := firstn n xs.

(** [xs.join(sep)] *)
Definition join (sep : string) (xs : list string) : string := concat sep xs.

(** [xs.includes(x)] on an array of strings. *)
Definition arrayIncludes (xs : list string) (x : string) : bool :=
  existsb (String.eqb x) xs.

(** [String(n)] for an integer [n], as a template literal renders it. *)
Definition numberToString (n : Z) : string :=
  NilZero.string_of_int (Z.to_int n).

(** [Math.floor(x)] *)
Definition floor (x : Q) : Z := Qfloor x.

End JS.

(** ** The derivation helpers *)

(** [description.split('.')[0]] *)
Definition firstSentence (description : string) : string :=
  hd EmptyString (JS.split "." description).

(** The callback of [words.map] in [extractProductName]. *)
Definition capitalize (word : string) : string :=
  JS.toUpperCase (JS.charAt0 word) ++ JS.slice1 word.

Definition extractProductName (description : string) : string :=
  let firstSentence := firstSentence description in
  if JS.includes (JS.toLowerCase firstSentence) "hat" then
    "Premium Straw Hat"
  else if JS.includes (JS.toLowerCase firstSentence) "shirt" then
    "Designer Shirt"
  else if JS.includes (JS.toLowerCase firstSentence) "dress" then
    "Elegant Dress"
  else if JS.includes (JS.toLowerCase firstSentence) "jacket" then
    "Stylish Jacket"
  else
    let words := JS.sliceTo 3 (JS.split " " firstSentence) in
    JS.join " " (map capitalize words).

(** The value of [basePrice] when the five [if] statements of
    [generatePrice] have run, one assignment after the other. *)
Definition basePriceOf (description : string) (tags : list string) : Z :=
  let desc := JS.toLowerCase description in
  let tagList := map JS.toLowerCase tags in
  let basePrice := 50 in
  let basePrice :=
    if JS.includes desc "hat" then 45 else basePrice in
  let basePrice :=
    if (JS.includes desc "premium" || JS.includes desc "classic")%bool
    then basePrice + 20 else basePrice in
  let basePrice :=
    if (JS.arrayIncludes tagList "luxury"
        || JS.arrayIncludes tagList "designer")%bool
    then basePrice + 30 else basePrice in
  let basePrice :=
    if (JS.arrayIncludes tagList "handmade"
        || JS.arrayIncludes tagList "artisan")%bool
    then basePrice + 25 else basePrice in
  let basePrice :=
    if (JS.includes desc "straw" && JS.includes desc "wide-brim")%bool
    then basePrice + 15 else basePrice in
  basePrice.

(** [Math.floor(Math.random() * 20) - 10], with [random] the value
    returned by [Math.random()]. *)
Definition variationOf (random : Q) : Z :=
  JS.floor (random * 20)%Q - 10.

Definition generatePrice (random : Q) (description : string)
    (tags : list string) : string :=
  let basePrice := basePriceOf description tags in
  let variation := variationOf random in
  let finalPrice := Z.max (basePrice + variation) 25 in
  "$" ++ JS.numberToString finalPrice ++ ".00".

(** ** Data of the store *)

Module File.
(** A browser [File]: only its declared MIME type is read by the store. *)
Record t : Type := mk { name : string; type : string; bytes : list ascii }.
End File.

Module ClothingAnalysis.
Record t : Type := mk { description : string; tags : list string }.
End ClothingAnalysis.

Module ApiResponse.
Record t : Type := mk {
  success : bool;
  message : string;
  clothing_analysis : ClothingAnalysis.t;
  generated_image_url : string;
  generated_image_path : string
}.
End ApiResponse.

Module ProductCard.
Record t : Type := mk {
  id : string;
  productName : string;
  price : string;
  description : string;
  tags : list string;
  modelImage : string;
  productImage : string
}.
End ProductCard.

(** The state part of [ProductStore]. *)
Record ProductStore : Type := mkStore {
  isGenerating : bool;
  generatedCards : list ProductCard.t;
  error : option string
}.

(** The object handed to zustand's [set]: the fields it mentions. *)
Record Partial : Type := mkPartial {
  setIsGenerating : option bool;
  setGeneratedCards : option (list ProductCard.t);
  setErrorField : option (option string)
}.

(** [set(partial)]: the mentioned fields are replaced, the others kept. *)
Definition set (p : Partial) (state : ProductStore) : ProductStore :=
  {| isGenerating := match setIsGenerating p with
                     | Some b => b
                     | None => isGenerating state
                     end;
     generatedCards := match setGeneratedCards p with
                       | Some cards => cards
                       | None => generatedCards state
                       end;
     error := match setErrorField p with
              | Some e => e
              | None => error state
              end |}.

(** [set(state => partial)] *)
Definition setWith (f : ProductStore -> Partial) (state : ProductStore)
  : ProductStore :=
  set (f state) state.

(** The initial state of [useProductStore]. *)
Definition initialStore : ProductStore :=
  {| isGenerating := false; generatedCards := []; error := None |}.

(** ** Exceptions and settled promises *)

(** What a [catch] clause may receive: an [Error] with its message, or
    any other thrown value. *)
Inductive Thrown : Type :=
| JsError (message : string)
| NotAnError.

(** The outcome of a [try] block or of an awaited promise. *)
Inductive Settled (A : Type) : Type :=
| Fulfilled (a : A)
| Rejected (e : Thrown).
Arguments Fulfilled {A} a.
Arguments Rejected {A} e.

Definition bind {A B : Type} (m : Settled A) (k : A -> Settled B)
  : Settled B :=
  match m with
  | Fulfilled a => k a
  | Rejected e => Rejected e
  end.

Notation "x <- m ;; k" := (bind m (fun x => k))
  (at level 61, m at next level, right associativity).

(** [throw new Error(msg)] *)
Definition throwError {A : Type} (msg : string) : Settled A :=
  Rejected (JsError msg).

(** ** The API client *)

Inductive FormValue : Type :=
| FileValue (f : File.t)
| TextValue (s : string).

(** A [FormData] body: its parts in the order they were appended. *)
Definition FormData : Type := list (string * FormValue).

Record Request : Type := mkRequest {
  url : string;
  method : string;
  body : FormData
}.

(** The [Response] of [fetch], with what [text()] and [json()] settle to. *)
Record Response : Type := mkResponse {
  status : Z;
  statusText : string;
  text : Settled string;
  json : Settled ApiResponse.t
}.

(** [response.ok]: the status is in the range 200 to 299. *)
Definition ok (response : Response) : bool :=
  ((200 <=? status response) && (status response <=? 299))%bool.

(** A string is truthy when it is present and not empty. *)
Definition truthy (s : option string) : bool :=
  match s with
  | Some s' => negb (String.eqb s' EmptyString)
  | None => false
  end.

(** The form data built by [generateProductListing]. *)
Definition formDataOf (clothingImage modelImage : File.t)
    (outputFilename : option string) : FormData :=
  let formData : FormData := [] in
  let formData :=
    (formData ++ [("clothing_image", FileValue clothingImage)])%list in
  let formData :=
    (formData ++ [("model_image", FileValue modelImage)])%list in
  match outputFilename with
  | Some filename =>
      if truthy outputFilename
      then (formData ++ [("output_filename", TextValue filename)])%list
      else formData
  | None => formData
  end.

(** The call [generateProductListing] makes to [fetch]. *)
Definition requestOf (clothingImage modelImage : File.t)
    (outputFilename : option string) : Request :=
  {| url := "http://localhost:8000/generate-product-listing";
     method := "POST";
     body := formDataOf clothingImage modelImage outputFilename |}.

(** The rest of [generateProductListing], once [fetch] has settled. *)
Definition generateProductListing (fetched : Settled Response)
  : Settled ApiResponse.t :=
  response <- fetched ;;
  if negb (ok response) then
    errorText <- text response ;;
    throwError ("API call failed: " ++ JS.numberToString (status response)
                ++ " " ++ statusText response ++ " - " ++ errorText)
  else
    json response.

(** ** Mapping a response to a card *)

Definition mapApiResponseToProductCard (now : Z) (random : Q)
    (apiResponse : ApiResponse.t) : ProductCard.t :=
  let clothing_analysis := ApiResponse.clothing_analysis apiResponse in
  let generated_image_url := ApiResponse.generated_image_url apiResponse in
  {| ProductCard.id := JS.numberToString now;
     ProductCard.productName :=
       extractProductName (ClothingAnalysis.description clothing_analysis);
     ProductCard.price :=
       generatePrice random
         (ClothingAnalysis.description clothing_analysis)
         (ClothingAnalysis.tags clothing_analysis);
     ProductCard.description :=
       ClothingAnalysis.description clothing_analysis;
     ProductCard.tags := ClothingAnalysis.tags clothing_analysis;
     ProductCard.modelImage :=
       "http://localhost:8000" ++ generated_image_url;
     ProductCard.productImage :=
       "http://localhost:8000" ++ generated_image_url |}.

(** ** The actions of the store *)

Definition allowedTypes : list string :=
  ["image/jpeg"; "image/jpg"; "image/png"; "image/gif"; "image/bmp";
   "image/webp"].

(** The two validation steps at the head of the [try] block. *)
Definition validate (clothingImage modelImage : option File.t)
  : Settled (File.t * File.t) :=
  match clothingImage, modelImage with
  | Some clothing, Some model =>
      if negb (JS.arrayIncludes allowedTypes (File.type clothing)) then
        throwError "Clothing image must be a valid image file (jpg, jpeg, png, gif, bmp, webp)"
      else if negb (JS.arrayIncludes allowedTypes (File.type model)) then
        throwError "Model image must be a valid image file (jpg, jpeg, png, gif, bmp, webp)"
      else Fulfilled (clothing, model)
  | _, _ => throwError "Both clothing and model images are required"
  end.

(** The [catch] clause of [generateProductCard]. *)
Definition onCatch (e : Thrown) : ProductStore -> ProductStore :=
  set {| setIsGenerating := Some false;
         setGeneratedCards := None;
         setErrorField :=
           Some (Some match e with
                      | JsError message => message
                      | NotAnError => "Failed to generate product card"
                      end) |}.

(** Where a call of [generateProductCard] stands after its synchronous
    part: finished in the [catch] clause, or waiting for the API call. *)
Inductive Progress : Type :=
| Finished (state : ProductStore)
| Awaiting (state : ProductStore) (request : Request).

(** [generateProductCard], from the call to the first [await]. *)
Definition generateProductCard_begin (clothingImage modelImage : option File.t)
    (outputFilename : option string) (state : ProductStore) : Progress :=
  let state :=
    set {| setIsGenerating := Some true;
           setGeneratedCards := None;
           setErrorField := Some None |} state in
  match validate clothingImage modelImage with
  | Fulfilled (clothing, model) =>
      Awaiting state (requestOf clothing model outputFilename)
  | Rejected e => Finished (onCatch e state)
  end.

(** [generateProductCard], from the settlement of [fetch] to the end.
    [state] is the store at that moment. *)
Definition generateProductCard_settle (now : Z) (random : Q)
    (fetched : Settled Response) (state : ProductStore) : ProductStore :=
  match generateProductListing fetched with
  | Fulfilled apiResponse =>
      let newCard := mapApiResponseToProductCard now random apiResponse in
      setWith (fun state =>
        {| setGeneratedCards := Some (newCard :: generatedCards state);
           setIsGenerating := Some false;
           setErrorField := Some None |}) state
  | Rejected e => onCatch e state
  end.

(** The network as the store sees it: what [fetch] settles to for a
    request. *)
Definition Network : Type := Request -> Settled Response.

(** One whole call of [generateProductCard] with no other action in
    between: the final store and the requests sent, in order. *)
Definition generateProductCard (network : Network) (now : Z) (random : Q)
    (clothingImage modelImage : option File.t)
    (outputFilename : option string) (state : ProductStore)
  : ProductStore * list Request :=
  match generateProductCard_begin clothingImage modelImage outputFilename
          state with
  | Finished state' => (state', [])
  | Awaiting state' request =>
      (generateProductCard_settle now random (network request) state',
       [request])
  end.

Definition clearCards : ProductStore -> ProductStore :=
  set {| setIsGenerating := None;
         setGeneratedCards := Some [];
         setErrorField := Some None |}.

Definition setError (error : option string) : ProductStore -> ProductStore :=
  set {| setIsGenerating := None;
         setGeneratedCards := None;
         setErrorField := Some error |}.

(** ** The page component

    [AIProductCardGenerator] of [frontend/demo/app/page.tsx]: its three
    [useState] cells, its event handlers, and the conditions under which
    it renders each part of the view. *)

Module Page.

Record State : Type := mk {
  isModalOpen : bool;
  clothingImage : option File.t;
  modelImage : option File.t
}.

(** The values given to the three [useState] calls. *)
Definition initial : State :=
  {| isModalOpen := false; clothingImage := None; modelImage := None |}.

Definition setIsModalOpen (open : bool) (page : State) : State :=
  {| isModalOpen := open;
     clothingImage := clothingImage page;
     modelImage := modelImage page |}.

Definition setClothingImage (file : option File.t) (page : State) : State :=
  {| isModalOpen := isModalOpen page;
     clothingImage := file;
     modelImage := modelImage page |}.

Definition setModelImage (file : option File.t) (page : State) : State :=
  {| isModalOpen := isModalOpen page;
     clothingImage := clothingImage page;
     modelImage := file |}.

(** [files] is [e.target.files]: [null], or the files that were chosen. *)
Definition handleClothingUpload (files : option (list File.t))
    (page : State) : State :=
  match files with
  | Some (file :: _) => setClothingImage (Some file) page
  | _ => page
  end.

Definition handleModelUpload (files : option (list File.t))
    (page : State) : State :=
  match files with
  | Some (file :: _) => setModelImage (Some file) page
  | _ => page
  end.

(** Where [handleGenerateWithAI] stands when it gives control back: it
    has returned, or it waits for the API call of the store. *)
Inductive Handling : Type :=
| Returned (page : State) (store : ProductStore)
| Suspended (page : State) (store : ProductStore) (request : Request).

(** The two [setState] calls after the [await]. *)
Definition clearUploads (page : State) : State :=
  setModelImage None (setClothingImage None page).

(** [handleGenerateWithAI] up to the point where the store waits for
    [fetch]; [timestamp] is the value of [Date.now()].  When the store
    finishes without a request, the lines after the [await] run before
    any other event and are part of this step. *)
Definition handleGenerateWithAI_begin (timestamp : Z) (page : State)
    (store : ProductStore) : Handling :=
  match clothingImage page, modelImage page with
  | Some clothing, Some model =>
      let page := setIsModalOpen false page in
      let store := setError None store in
      let outputFilename :=
        "product_listing_" ++ JS.numberToString timestamp ++ ".png" in
      match generateProductCard_begin (Some clothing) (Some model)
              (Some outputFilename) store with
      | Finished store => Returned (clearUploads page) store
      | Awaiting store request => Suspended page store request
      end
  | _, _ => Returned page store
  end.

(** [handleGenerateWithAI] from the settlement of [fetch] to its end. *)
Definition handleGenerateWithAI_settle (now : Z) (random : Q)
    (fetched : Settled Response) (page : State) (store : ProductStore)
  : State * ProductStore :=
  let store := generateProductCard_settle now random fetched store in
  (clearUploads page, store).

Definition handleDismissError (store : ProductStore) : ProductStore :=
  setError None store.

(** A value of type [File | null] is truthy when it is a file. *)
Definition present (file : option File.t) : bool :=
  match file with
  | Some _ => true
  | None => false
  end.

(** The [disabled] attribute of the generate button. *)
Definition generateDisabled (page : State) (store : ProductStore) : bool :=
  (negb (present (clothingImage page)) || negb (present (modelImage page))
   || isGenerating store)%bool.

(** The conditions [{cond && (...)}] of the view. *)
Definition showsClearButton (store : ProductStore) : bool :=
  Nat.ltb 0 (List.length (generatedCards store)).

Definition showsError (store : ProductStore) : bool :=
  truthy (error store).

Definition showsLoading (store : ProductStore) : bool :=
  isGenerating store.

Definition showsCards (store : ProductStore) : bool :=
  Nat.ltb 0 (List.length (generatedCards store)).

Definition showsEmptyState (store : ProductStore) : bool :=
  (Nat.eqb (List.length (generatedCards store)) 0
   && negb (isGenerating store))%bool.

(** [card.modelImage || "/placeholder.svg"] *)
Definition imageSrc (card : ProductCard.t) : string :=
  if truthy (Some (ProductCard.modelImage card))
  then ProductCard.modelImage card
  else "/placeholder.svg".

(** The page with its store and the API calls that have not settled. *)
Record UI : Type := mkUI {
  page : State;
  store : ProductStore;
  inFlight : list Request
}.

Definition start : UI :=
  {| page := initial; store := initialStore; inFlight := [] |}.

(** What can happen to the page: the user acts on an element of the
    view, or a pending API call settles. *)
Inductive Event : Type :=
| OpenChange (open : bool)
| ChooseClothing (files : option (list File.t))
| ChooseModel (files : option (list File.t))
| ClickGenerate (timestamp : Z)
| ClickClear
| ClickDismiss
| Settle (index : nat) (now : Z) (random : Q) (fetched : Settled Response).

(** An event can happen when its element is rendered and enabled: the
    file inputs and the generate button are inside the dialog, the clear
    and dismiss buttons are rendered on their conditions. *)
Definition offered (event : Event) (ui : UI) : bool :=
  match event with
  | OpenChange _ => true
  | ChooseClothing _ | ChooseModel _ => isModalOpen (page ui)
  | ClickGenerate _ =>
      (isModalOpen (page ui)
       && negb (generateDisabled (page ui) (store ui)))%bool
  | ClickClear => showsClearButton (store ui)
  | ClickDismiss => showsError (store ui)
  | Settle index _ _ _ => Nat.ltb index (List.length (inFlight ui))
  end.

Fixpoint removeAt {A : Type} (index : nat) (xs : list A) : list A :=
  match xs, index with
  | [], _ => []
  | _ :: rest, O => rest
  | x :: rest, S index' => x :: removeAt index' rest
  end.

Definition react (event : Event) (ui : UI) : UI :=
  match event with
  | OpenChange open =>
      {| page := setIsModalOpen open (page ui);
         store := store ui; inFlight := inFlight ui |}
  | ChooseClothing files =>
      {| page := handleClothingUpload files (page ui);
         store := store ui; inFlight := inFlight ui |}
  | ChooseModel files =>
      {| page := handleModelUpload files (page ui);
         store := store ui; inFlight := inFlight ui |}
  | ClickGenerate timestamp =>
      match handleGenerateWithAI_begin timestamp (page ui) (store ui) with
      | Returned page' store' =>
          {| page := page'; store := store'; inFlight := inFlight ui |}
      | Suspended page' store' request =>
          {| page := page'; store := store';
             inFlight := (inFlight ui ++ [request])%list |}
      end
  | ClickClear =>
      {| page := page ui; store := clearCards (store ui);
         inFlight := inFlight ui |}
  | ClickDismiss =>
      {| page := page ui; store := handleDismissError (store ui);
         inFlight := inFlight ui |}
  | Settle index now random fetched =>
      let (page', store') :=
        handleGenerateWithAI_settle now random fetched (page ui) (store ui) in
      {| page := page'; store := store';
         inFlight := removeAt index (inFlight ui) |}
  end.

(** The states the page can be in. *)
Inductive Reachable : UI -> Prop :=
| ReachStart : Reachable start
| ReachStep (ui : UI) (event : Event) :
    Reachable ui -> offered event ui = true -> Reachable (react event ui).

End Page.

(** * Properties *)

(** ** Vocabulary of the specification *)

(** [s] has an occurrence of [keyword], whatever the case of its letters. *)
Definition containsIgnoreCase (s keyword : string) : Prop :=
  exists before occurrence after,
    s = before ++ occurrence ++ after /\
    JS.toLowerCase occurrence = keyword.

(** The character [c] does not occur in [s]. *)
Definition freeOf (c : ascii) (s : string) : Prop :=
  ~ In c (list_ascii_of_string s).

(** [sentence] is the text of [description] up to its first period, or
    all of it when it has no period. *)
Definition sentenceOf (description sentence : string) : Prop :=
  freeOf "." sentence /\
  (description = sentence \/
   exists rest, description = sentence ++ String "." rest).




(** A decimal digit, the class [\d] of a JavaScript pattern. *)
Definition isDigit (c : ascii) : bool :=
  let n := nat_of_ascii c in (Nat.leb 48 n && Nat.leb n 57)%bool.

Fixpoint allDigits (s : string) : bool :=
  match s with
  | EmptyString => true
  | String c s' => (isDigit c && allDigits s')%bool
  end.

(** The longest run of digits at the head of [s] ... *)
Fixpoint digitsPrefix (s : string) : string :=
  match s with
  | EmptyString => EmptyString
  | String c s' => if isDigit c then String c (digitsPrefix s') else EmptyString
  end.

(** ... and what follows it. *)
Fixpoint afterDigits (s : string) : string :=
  match s with
  | EmptyString => EmptyString
  | String c s' => if isDigit c then afterDigits s' else s
  end.

(** The test of the pattern [/^\$\d+\.00$/].  The character after the
    digits must be a period, which is no digit, so the digits matched are
    the longest run. *)
Definition matchesPricePattern (s : string) : bool :=
  match s with
  | String "$" rest =>
      (negb (digitsPrefix rest =? "")%string
       && (afterDigits rest =? ".00")%string)%bool
  | _ => false
  end.

(** The number written by the digits after the dollar sign. *)
Definition numericPart (s : string) : option Z :=
  match s with
  | String "$" rest =>
      option_map Z.of_uint (NilZero.uint_of_string (digitsPrefix rest))
  | _ => None
  end.

(** The base price in the words of the specification: 45 for a hat and 50
    otherwise, plus the surcharge of every additive rule that applies. *)
Definition specBasePrice (description : string) (tags : list string) : Z :=
  let desc := JS.toLowerCase description in
  let tagSet := map JS.toLowerCase tags in
  let surcharge (applies : bool) (amount : Z) : Z :=
    if applies then amount else 0 in
  (if JS.includes desc "hat" then 45 else 50)
  + surcharge (JS.includes desc "premium" || JS.includes desc "classic")%bool 20
  + surcharge (if in_dec string_dec "luxury" tagSet then true
               else if in_dec string_dec "designer" tagSet then true
               else false) 30
  + surcharge (if in_dec string_dec "handmade" tagSet then true
               else if in_dec string_dec "artisan" tagSet then true
               else false) 25
  + surcharge (JS.includes desc "straw" && JS.includes desc "wide-brim")%bool 15.

(** The MIME types the specification lists for an image. *)
Definition isImageMime (mime : string) : Prop :=
  mime = "image/jpeg" \/ mime = "image/jpg" \/ mime = "image/png" \/
  mime = "image/gif" \/ mime = "image/bmp" \/ mime = "image/webp".


(** ** Sample inputs *)

Definition shirtPhoto : File.t :=
  File.mk "shirt.png" "image/png" [].

Definition modelPhoto : File.t :=
  File.mk "model.jpg" "image/jpeg" [].

Definition notesDocument : File.t :=
  File.mk "notes.pdf" "application/pdf" [].

Definition strawHatAnalysis : ApiResponse.t :=
  ApiResponse.mk true "Product listing generated"
    (ClothingAnalysis.mk "A classic straw wide-brim hat with leather trim."
       ["handmade"; "luxury"])
    "/generated_images/listing.png" "generated_images/listing.png".

(** A service that answers every request with the straw-hat analysis. *)
Definition serviceUp : Network :=
  fun _ => Fulfilled {| status := 200; statusText := "OK";
                        text := Fulfilled "{}";
                        json := Fulfilled strawHatAnalysis |}.


(** A store that already shows one card and an old error. *)
Definition usedStore : ProductStore :=
  {| isGenerating := false;
     generatedCards :=
       [ProductCard.mk "1700000000000" "Designer Shirt" "$61.00"
          "A blue cotton shirt." ["casual"]
          "http://localhost:8000/generated_images/old.png"
          "http://localhost:8000/generated_images/old.png"];
     error := Some "Failed to fetch" |}.

(** ** Facts about the string primitives *)

Section StringFacts.



Lemma startsWith_iff (s t : string) :
  JS.startsWith s t = true <-> exists after, s = t ++ after.
Proof.
  revert s. induction t as [|b t IH]; intros s; simpl.
  - split; [intros _; now exists s | reflexivity].
  - destruct s as [|a s].
    + split; [discriminate | intros [after H]; discriminate].
    + rewrite andb_true_iff, IH. split.
      * intros [Hab [after ->]]. apply Ascii.eqb_eq in Hab. subst.
        now exists after.
      * intros [after H]. injection H as -> ->. split.
        -- apply Ascii.eqb_refl.
        -- now exists after.
Qed.

Lemma includes_iff (s t : string) :
  JS.includes s t = true <-> exists before after, s = before ++ t ++ after.
Proof.
  induction s as [|a s IH].
  - simpl. rewrite orb_false_r, startsWith_iff. split.
    + intros [after H]. now exists "", after.
    + intros [before [after H]]. destruct before; [now exists after|].
      discriminate.
  - cbn [JS.includes]. rewrite orb_true_iff, IH, startsWith_iff. split.
    + intros [[after H] | [before [after H]]].
      * now exists "", after.
      * exists (String a before), after. simpl. now rewrite H.
    + intros [before [after H]]. destruct before as [|x before].
      * left. now exists after.
      * right. injection H as -> ->. now exists before, after.
Qed.

Lemma mapChars_app (f : ascii -> ascii) (a b : string) :
  JS.mapChars f (a ++ b) = JS.mapChars f a ++ JS.mapChars f b.
Proof. induction a as [|x a IH]; simpl; [reflexivity | now rewrite IH]. Qed.

Lemma mapChars_unapp (f : ascii -> ascii) (s a b : string) :
  JS.mapChars f s = a ++ b ->
  exists a' b', s = a' ++ b' /\ JS.mapChars f a' = a /\ JS.mapChars f b' = b.
Proof.
  revert s. induction a as [|x a IH]; intros s H.
  - now exists "", s.
  - destruct s as [|c s]; [discriminate|]. simpl in H.
    injection H as Hx H. destruct (IH _ H) as [a' [b' [-> [Ha Hb]]]].
    exists (String c a'), b'. simpl. now rewrite Hx, Ha, Hb.
Qed.

(** The test of the source, [s.toLowerCase().includes(keyword)], is the
    case-insensitive containment of the specification. *)
Lemma includes_toLowerCase_iff (s keyword : string) :
  JS.includes (JS.toLowerCase s) keyword = true <->
  containsIgnoreCase s keyword.
Proof.
  rewrite includes_iff. unfold containsIgnoreCase, JS.toLowerCase. split.
  - intros [before [after H]].
    destruct (mapChars_unapp _ _ _ _ H) as [a' [rest [-> [_ Hrest]]]].
    destruct (mapChars_unapp _ _ _ _ Hrest) as [w [b' [-> [Hw _]]]].
    now exists a', w, b'.
  - intros [before [w [after [-> Hw]]]].
    exists (JS.mapChars JS.lowerChar before), (JS.mapChars JS.lowerChar after).
    now rewrite !mapChars_app, Hw.
Qed.

End StringFacts.

(** ** Facts about [split] and [join] *)

Section SplitFacts.

Variable sep : ascii.

Lemma freeOf_cons (c : ascii) (s : string) :
  freeOf sep (String c s) <-> c <> sep /\ freeOf sep s.
Proof.
  unfold freeOf. simpl. split.
  - intros H. split; [intros ->; apply H; now left | intros Hin; apply H; now right].
  - intros [Hc Hs] [-> | Hin]; [now apply Hc | now apply Hs].
Qed.

Lemma split_nonempty (s : string) : JS.split sep s <> [].
Proof.
  destruct s as [|c s]; simpl; [discriminate|].
  destruct (Ascii.eqb c sep); [discriminate|].
  destruct (JS.split sep s); discriminate.
Qed.

Lemma split_free (s : string) : freeOf sep s -> JS.split sep s = [s].
Proof.
  induction s as [|c s IH]; intros H; simpl; [reflexivity|].
  apply freeOf_cons in H. destruct H as [Hc Hs].
  apply Ascii.eqb_neq in Hc. now rewrite Hc, (IH Hs).
Qed.

Lemma split_app_sep (s rest : string) :
  freeOf sep s ->
  JS.split sep (s ++ String sep rest) = s :: JS.split sep rest.
Proof.
  induction s as [|c s IH]; intros H; simpl.
  - now rewrite Ascii.eqb_refl.
  - apply freeOf_cons in H. destruct H as [Hc Hs].
    apply Ascii.eqb_neq in Hc. now rewrite Hc, (IH Hs).
Qed.


Lemma concat_cons_char (c : ascii) (piece : string) (rest : list string) :
  concat (String sep "") (String c piece :: rest) =
  String c (concat (String sep "") (piece :: rest)).
Proof. destruct rest; reflexivity. Qed.

Lemma concat_split (s : string) :
  concat (String sep "") (JS.split sep s) = s.
Proof.
  induction s as [|c s IH]; simpl; [reflexivity|].
  destruct (Ascii.eqb_spec c sep) as [-> | Hc].
  - pose proof (split_nonempty s) as Hne.
    destruct (JS.split sep s) as [|piece rest]; [now destruct Hne|].
    change (concat (String sep "") ("" :: piece :: rest))
      with (String sep (concat (String sep "") (piece :: rest))).
    now rewrite IH.
  - pose proof (split_nonempty s) as Hne.
    destruct (JS.split sep s) as [|piece rest]; [now destruct Hne|].
    now rewrite concat_cons_char, IH.
Qed.

Lemma split_pieces_free (s : string) : Forall (freeOf sep) (JS.split sep s).
Proof.
  induction s as [|c s IH]; simpl.
  - constructor; [intros [] | constructor].
  - destruct (Ascii.eqb_spec c sep) as [-> | Hc].
    + constructor; [intros [] | assumption].
    + destruct (JS.split sep s) as [|piece rest].
      * constructor; [|constructor]. apply freeOf_cons. split; [assumption | intros []].
      * inversion IH; subst. constructor; [|assumption].
        apply freeOf_cons. now split.
Qed.

End SplitFacts.


(** [split('.')[0]] is the first sentence of the specification. *)
Lemma sentenceOf_firstSentence (description sentence : string) :
  sentenceOf description sentence <-> firstSentence description = sentence.
Proof.
  unfold sentenceOf, firstSentence. split.
  - intros [Hfree [-> | [rest ->]]].
    + now rewrite split_free.
    + now rewrite split_app_sep.
  - intros <-. pose proof (split_pieces_free "." description) as Hfree.
    pose proof (concat_split "." description) as Hcat.
    pose proof (split_nonempty "." description) as Hne.
    destruct (JS.split "." description) as [|piece rest]; [now destruct Hne|].
    inversion Hfree; subst. split; [assumption|]. simpl hd.
    destruct rest as [|q rest]; [now left | right].
    now exists (concat "." (q :: rest)).
Qed.

(** ** The product name *)

Lemma not_includes_toLowerCase (s keyword : string) :
  ~ containsIgnoreCase s keyword ->
  JS.includes (JS.toLowerCase s) keyword = false.
Proof.
  intros H. apply not_true_is_false. intros Hinc.
  now apply H, includes_toLowerCase_iff.
Qed.

Lemma capitalize_cons (c : ascii) (word : string) :
  capitalize (String c word) = String (JS.upperChar c) word.
Proof. reflexivity. Qed.


(** C5: when the first sentence of the description contains "hat" in any
    letter case the name is "Premium Straw Hat", whatever else the
    description says; the keywords "hat", "shirt", "dress" and "jacket"
    are tried in this order and the first that occurs fixes the label. *)
Theorem extractProductName_keyword_priority
    (description sentence : string) :
  sentenceOf description sentence ->
  (containsIgnoreCase sentence "hat" ->
   extractProductName description = "Premium Straw Hat") /\
  (~ containsIgnoreCase sentence "hat" ->
   containsIgnoreCase sentence "shirt" ->
   extractProductName description = "Designer Shirt") /\
  (~ containsIgnoreCase sentence "hat" ->
   ~ containsIgnoreCase sentence "shirt" ->
   containsIgnoreCase sentence "dress" ->
   extractProductName description = "Elegant Dress") /\
  (~ containsIgnoreCase sentence "hat" ->
   ~ containsIgnoreCase sentence "shirt" ->
   ~ containsIgnoreCase sentence "dress" ->
   containsIgnoreCase sentence "jacket" ->
   extractProductName description = "Stylish Jacket").
Proof.
  intros Hs. apply sentenceOf_firstSentence in Hs.
  unfold extractProductName. rewrite Hs. clear Hs.
  repeat split; intros;
    repeat match goal with
    | H : ~ containsIgnoreCase _ _ |- _ =>
        rewrite (not_includes_toLowerCase _ _ H); clear H
    | H : containsIgnoreCase _ _ |- _ =>
        apply includes_toLowerCase_iff in H; rewrite H; clear H
    end; reflexivity.
Qed.

Lemma extractProductName_keyword_priority_witness :
  sentenceOf "A Classic Straw HAT. With a shirt." "A Classic Straw HAT" /\
  containsIgnoreCase "A Classic Straw HAT" "hat" /\
  extractProductName "A Classic Straw HAT. With a shirt."
  = "Premium Straw Hat".
Proof.
  assert (Hs : sentenceOf "A Classic Straw HAT. With a shirt."
                 "A Classic Straw HAT")
    by (apply sentenceOf_firstSentence; reflexivity).
  assert (Hc : containsIgnoreCase "A Classic Straw HAT" "hat")
    by (apply includes_toLowerCase_iff; reflexivity).
  split; [exact Hs|]. split; [exact Hc|].
  exact (proj1 (extractProductName_keyword_priority _ _ Hs) Hc).
Defined.




(** ** Decimal rendering and the price pattern *)

Section PriceFormat.

Lemma string_of_uint_allDigits (d : Decimal.uint) :
  allDigits (NilEmpty.string_of_uint d) = true.
Proof. induction d; simpl; auto. Qed.

Lemma digits_then_other (digits rest : string) (c : ascii) :
  allDigits digits = true -> isDigit c = false ->
  digitsPrefix (digits ++ String c rest) = digits /\
  afterDigits (digits ++ String c rest) = String c rest.
Proof.
  intros Hd Hc. induction digits as [|x digits IH]; simpl.
  - now rewrite Hc.
  - simpl in Hd. apply andb_true_iff in Hd. destruct Hd as [Hx Hd].
    rewrite Hx. destruct (IH Hd) as [-> ->]. now split.
Qed.

Lemma digits_decomposition (s : string) :
  s = digitsPrefix s ++ afterDigits s /\ allDigits (digitsPrefix s) = true.
Proof.
  induction s as [|c s [IH1 IH2]]; simpl; [now split|].
  destruct (isDigit c) eqn:Hc; simpl; [|now split].
  rewrite Hc, IH2. split; [now rewrite <- IH1 | reflexivity].
Qed.

(** The recognizer accepts exactly a dollar sign, one digit or more, and
    the text ".00". *)
Lemma matchesPricePattern_iff (s : string) :
  matchesPricePattern s = true <->
  exists digits, digits <> "" /\ allDigits digits = true /\
                 s = "$" ++ digits ++ ".00".
Proof.
  split.
  - destruct s as [|c rest]; [discriminate|]. unfold matchesPricePattern.
    destruct (Ascii.eqb_spec c "$") as [-> | Hc].
    + intros H. apply andb_true_iff in H. destruct H as [Hne Hafter].
      apply String.eqb_eq in Hafter. apply negb_true_iff in Hne.
      apply String.eqb_neq in Hne.
      destruct (digits_decomposition rest) as [Hrest Hdigits].
      exists (digitsPrefix rest). rewrite Hafter in Hrest.
      repeat split; [assumption | assumption | now rewrite <- Hrest].
    + intros H. exfalso. apply Hc. clear Hc.
      destruct c as [[|] [|] [|] [|] [|] [|] [|] [|]];
        (discriminate H || reflexivity).
  - intros [digits [Hne [Hd ->]]]. simpl.
    destruct (digits_then_other digits "00" "." Hd eq_refl) as [-> ->].
    apply andb_true_iff. split; [|reflexivity].
    apply negb_true_iff. now apply String.eqb_neq.
Qed.

(** A natural number is rendered by its decimal digits, which read back
    as the number. *)
Lemma numberToString_nonneg (n : Z) :
  0 <= n ->
  exists d, d <> Decimal.Nil /\
            JS.numberToString n = NilEmpty.string_of_uint d /\
            NilZero.uint_of_string (NilEmpty.string_of_uint d) = Some d /\
            Z.of_uint d = n.
Proof.
  intros Hn. destruct n as [|p|p]; [| |lia].
  - exists Decimal.zero. repeat split. discriminate.
  - exists (Pos.to_uint p).
    pose proof (DecimalPos.Unsigned.to_uint_nonnil p) as Hnil.
    split; [assumption|]. split; [|split].
    + unfold JS.numberToString. simpl.
      now destruct (Pos.to_uint p).
    + rewrite <- (NilZero.usu _ Hnil). now destruct (Pos.to_uint p).
    + unfold Z.of_uint. now rewrite DecimalPos.Unsigned.of_to.
Qed.

(** A price made of a natural number matches the pattern and its numeric
    part is that number. *)
Lemma price_format (n : Z) :
  0 <= n ->
  let price := "$" ++ JS.numberToString n ++ ".00" in
  matchesPricePattern price = true /\ numericPart price = Some n.
Proof.
  intros Hn price. subst price.
  destruct (numberToString_nonneg n Hn) as [d [Hnil [Hstr [Hparse Hval]]]].
  rewrite Hstr. split.
  - apply matchesPricePattern_iff. exists (NilEmpty.string_of_uint d).
    split; [|split; [apply string_of_uint_allDigits | reflexivity]].
    destruct d; (discriminate || now destruct Hnil).
  - simpl.
    destruct (digits_then_other _ "00" "." (string_of_uint_allDigits d)
                eq_refl) as [-> _].
    rewrite Hparse. simpl. now rewrite Hval.
Qed.

End PriceFormat.

(** ** The price *)

Section Price.

Lemma floor_random_range (random : Q) :
  (0 <= random)%Q -> (random < 1)%Q -> 0 <= JS.floor (random * 20)%Q <= 19.
Proof.
  destruct random as [n d]. unfold Qle, Qlt, JS.floor, Qfloor, Qmult. simpl.
  intros H0 H1. split.
  - apply Z.div_pos; lia.
  - assert (n * 20 / Z.pos (d * 1) < 20); [|lia].
    apply Z.div_lt_upper_bound; lia.
Qed.

Lemma variationOf_range (random : Q) :
  (0 <= random)%Q -> (random < 1)%Q -> -10 <= variationOf random <= 9.
Proof.
  intros H0 H1. unfold variationOf.
  pose proof (floor_random_range random H0 H1). lia.
Qed.

Lemma arrayIncludes_In (xs : list string) (x : string) :
  JS.arrayIncludes xs x = true <-> In x xs.
Proof.
  unfold JS.arrayIncludes. rewrite existsb_exists. split.
  - intros [y [Hin Heq]]. apply String.eqb_eq in Heq. now subst.
  - intros Hin. exists x. split; [assumption | apply String.eqb_refl].
Qed.

Lemma arrayIncludes_in_dec (xs : list string) (x : string) :
  JS.arrayIncludes xs x = if in_dec string_dec x xs then true else false.
Proof.
  destruct (in_dec string_dec x xs) as [Hin | Hout].
  - now apply arrayIncludes_In.
  - apply not_true_is_false. intros H. now apply Hout, arrayIncludes_In.
Qed.

(** The assignments of the source compute the base price of the
    specification. *)
Lemma basePriceOf_spec (description : string) (tags : list string) :
  basePriceOf description tags = specBasePrice description tags.
Proof.
  unfold basePriceOf, specBasePrice. cbv zeta.
  rewrite !arrayIncludes_in_dec.
  destruct (JS.includes (JS.toLowerCase description) "hat");
  destruct (JS.includes (JS.toLowerCase description) "premium");
  destruct (JS.includes (JS.toLowerCase description) "classic");
  destruct (JS.includes (JS.toLowerCase description) "straw");
  destruct (JS.includes (JS.toLowerCase description) "wide-brim");
  destruct (in_dec string_dec "luxury" (map JS.toLowerCase tags));
  destruct (in_dec string_dec "designer" (map JS.toLowerCase tags));
  destruct (in_dec string_dec "handmade" (map JS.toLowerCase tags));
  destruct (in_dec string_dec "artisan" (map JS.toLowerCase tags));
  reflexivity.
Qed.

Lemma basePriceOf_range (description : string) (tags : list string) :
  45 <= basePriceOf description tags <= 140.
Proof.
  unfold basePriceOf. cbv zeta.
  repeat match goal with
         | |- context [if ?b then _ else _] => destruct b
         end; lia.
Qed.

End Price.

(** Every perturbation from -10 to 9 is produced by some draw. *)
Lemma variationOf_onto (p : Z) :
  -10 <= p <= 9 ->
  exists random, (0 <= random)%Q /\ (random < 1)%Q /\ variationOf random = p.
Proof.
  intros Hp. exists ((p + 10) # 20). unfold Qle, Qlt, variationOf, JS.floor.
  simpl. repeat split; try lia.
  replace ((p + 10) * 20) with ((p + 10) * 20 + 0) by lia.
  change (Z.pos (20 * 1)) with 20.
  rewrite Z.div_add_l by lia. change (0 / 20) with 0. lia.
Qed.

(** C1: the price is "$" followed by a number n and ".00", where n is the
    larger of 25 and base + p for a perturbation p between -10 and 9; the
    base is 45 when the lower-cased description contains "hat" and 50
    otherwise, plus 20 for "premium" or "classic", plus 30 for a tag
    "luxury" or "designer", plus 25 for a tag "handmade" or "artisan",
    plus 15 for "straw" together with "wide-brim".  So the price matches
    the pattern of a dollar sign, digits and ".00", and its numeric part
    is at least 25. *)
Theorem generatePrice_spec
    (random : Q) (description : string) (tags : list string) :
  (0 <= random)%Q -> (random < 1)%Q ->
  exists p, -10 <= p <= 9 /\
    let n := Z.max (specBasePrice description tags + p) 25 in
    generatePrice random description tags
    = "$" ++ JS.numberToString n ++ ".00" /\
    matchesPricePattern (generatePrice random description tags) = true /\
    numericPart (generatePrice random description tags) = Some n /\
    25 <= n.
Proof.
  intros H0 H1. exists (variationOf random).
  split; [now apply variationOf_range|]. intros n.
  assert (Hprice : generatePrice random description tags
                   = "$" ++ JS.numberToString n ++ ".00").
  { unfold generatePrice. cbv zeta. now rewrite basePriceOf_spec. }
  assert (Hn : 25 <= n) by (subst n; lia).
  split; [exact Hprice|]. rewrite Hprice.
  destruct (price_format n) as [Hmatch Hnum]; [lia|].
  repeat split; assumption.
Qed.

Lemma generatePrice_spec_witness :
  exists p, -10 <= p <= 9 /\
    let n := Z.max (specBasePrice "Premium silk hat" ["Designer"] + p) 25 in
    generatePrice (3 # 4) "Premium silk hat" ["Designer"]
    = "$" ++ JS.numberToString n ++ ".00" /\
    matchesPricePattern
      (generatePrice (3 # 4) "Premium silk hat" ["Designer"]) = true /\
    numericPart (generatePrice (3 # 4) "Premium silk hat" ["Designer"])
    = Some n /\
    25 <= n.
Proof.
  apply (generatePrice_spec (3 # 4) "Premium silk hat" ["Designer"]);
    unfold Qle, Qlt; simpl; lia.
Defined.

(** C9: the numeric part of the price is at least 35.  The base is never
    below 45, the perturbation never below -10, so the floor of 25 does
    not change the sum. *)
Theorem generatePrice_at_least_35
    (random : Q) (description : string) (tags : list string) :
  (0 <= random)%Q -> (random < 1)%Q ->
  45 <= basePriceOf description tags /\
  -10 <= variationOf random /\
  Z.max (basePriceOf description tags + variationOf random) 25
  = basePriceOf description tags + variationOf random /\
  exists n, 35 <= n /\
    generatePrice random description tags
    = "$" ++ JS.numberToString n ++ ".00" /\
    numericPart (generatePrice random description tags) = Some n.
Proof.
  intros H0 H1.
  pose proof (basePriceOf_range description tags) as Hbase.
  pose proof (variationOf_range random H0 H1) as Hvar.
  assert (Hmax : Z.max (basePriceOf description tags + variationOf random) 25
                 = basePriceOf description tags + variationOf random) by lia.
  repeat split; try lia.
  exists (basePriceOf description tags + variationOf random).
  split; [lia|].
  assert (Hprice : generatePrice random description tags
                   = "$" ++ JS.numberToString
                              (basePriceOf description tags
                               + variationOf random) ++ ".00").
  { unfold generatePrice. cbv zeta. now rewrite Hmax. }
  split; [exact Hprice|]. rewrite Hprice. apply price_format. lia.
Qed.

Lemma generatePrice_at_least_35_witness :
  exists n, 35 <= n /\
    generatePrice 0 "hat" [] = "$" ++ JS.numberToString n ++ ".00" /\
    numericPart (generatePrice 0 "hat" []) = Some n.
Proof.
  apply (generatePrice_at_least_35 0 "hat" []); unfold Qle, Qlt; simpl; lia.
Defined.

(** The bound 35 of C9 is reached: a plain hat with the lowest draw. *)
Lemma generatePrice_minimum_reached :
  basePriceOf "hat" [] = 45 /\ generatePrice 0 "hat" [] = "$35.00".
Proof. split; reflexivity. Qed.

(** C7: for the description "A classic straw wide-brim hat with leather
    trim." and the tags handmade and luxury, the name is "Premium Straw
    Hat", the base before the perturbation is 45+20+30+25+15 = 135, and
    the price is "$n.00" for a number n from 125 to 144. *)
Theorem scenario_classic_straw_hat (random : Q) :
  (0 <= random)%Q -> (random < 1)%Q ->
  let description := "A classic straw wide-brim hat with leather trim." in
  let tags := ["handmade"; "luxury"] in
  extractProductName description = "Premium Straw Hat" /\
  basePriceOf description tags = 45 + 20 + 30 + 25 + 15 /\
  exists n, 125 <= n <= 144 /\
    generatePrice random description tags
    = "$" ++ JS.numberToString n ++ ".00" /\
    matchesPricePattern (generatePrice random description tags) = true /\
    numericPart (generatePrice random description tags) = Some n.
Proof.
  intros H0 H1 description tags.
  split; [reflexivity|]. split; [reflexivity|].
  pose proof (variationOf_range random H0 H1) as Hvar.
  exists (135 + variationOf random). split; [lia|].
  assert (Hprice : generatePrice random description tags
                   = "$" ++ JS.numberToString (135 + variationOf random)
                     ++ ".00").
  { unfold generatePrice. cbv zeta.
    change (basePriceOf description tags) with 135.
    now rewrite Z.max_l by lia. }
  split; [exact Hprice|]. rewrite Hprice.
  destruct (price_format (135 + variationOf random)) as [Hm Hn]; [lia|].
  now split.
Qed.

Lemma scenario_classic_straw_hat_witness :
  extractProductName "A classic straw wide-brim hat with leather trim."
  = "Premium Straw Hat" /\
  generatePrice (1 # 2) "A classic straw wide-brim hat with leather trim."
    ["handmade"; "luxury"] = "$135.00".
Proof.
  destruct (scenario_classic_straw_hat (1 # 2)) as [Hname _];
    [unfold Qle; simpl; lia | unfold Qlt; simpl; lia |].
  split; [exact Hname | reflexivity].
Defined.

(** ** The store *)

Section Store.

Variable network : Network.
Variable now : Z.
Variable random : Q.

Lemma allowedTypes_iff (mime : string) :
  JS.arrayIncludes allowedTypes mime = true <-> isImageMime mime.
Proof.
  rewrite arrayIncludes_In. unfold allowedTypes, isImageMime. simpl.
  intuition congruence.
Qed.

Lemma allowedTypes_not (mime : string) :
  JS.arrayIncludes allowedTypes mime = false <-> ~ isImageMime mime.
Proof.
  rewrite <- allowedTypes_iff. now rewrite not_true_iff_false.
Qed.

Lemma isImageMime_dec (mime : string) : isImageMime mime \/ ~ isImageMime mime.
Proof.
  destruct (JS.arrayIncludes allowedTypes mime) eqn:H.
  - left. now apply allowedTypes_iff.
  - right. now apply allowedTypes_not.
Qed.

Lemma validate_images (clothing model : File.t) :
  isImageMime (File.type clothing) -> isImageMime (File.type model) ->
  validate (Some clothing) (Some model) = Fulfilled (clothing, model).
Proof.
  intros Hc Hm. unfold validate.
  apply allowedTypes_iff in Hc, Hm. now rewrite Hc, Hm.
Qed.

Lemma ok_iff (response : Response) :
  ok response = true <-> 200 <= status response <= 299.
Proof. unfold ok. rewrite andb_true_iff, !Z.leb_le. tauto. Qed.

(** What the [catch] clause leaves in the store. *)
Lemma onCatch_store (e : Thrown) (state : ProductStore) :
  onCatch e state =
  {| isGenerating := false;
     generatedCards := generatedCards state;
     error := Some match e with
                   | JsError message => message
                   | NotAnError => "Failed to generate product card"
                   end |}.
Proof. reflexivity. Qed.

(** A rejected validation ends the call at once, with no request. *)
Lemma generateProductCard_invalid
    (clothingImage modelImage : option File.t)
    (outputFilename : option string) (state : ProductStore)
    (message : string) :
  validate clothingImage modelImage = Rejected (JsError message) ->
  generateProductCard_begin clothingImage modelImage outputFilename state
  = Finished {| isGenerating := false;
                generatedCards := generatedCards state;
                error := Some message |} /\
  generateProductCard network now random clothingImage modelImage
    outputFilename state
  = ({| isGenerating := false;
        generatedCards := generatedCards state;
        error := Some message |}, []).
Proof.
  intros Hv. unfold generateProductCard, generateProductCard_begin.
  rewrite Hv. split; reflexivity.
Qed.

(** With two valid images the call sends one request and settles on its
    answer. *)
Lemma generateProductCard_valid (clothing model : File.t)
    (outputFilename : option string) (state : ProductStore) :
  isImageMime (File.type clothing) -> isImageMime (File.type model) ->
  generateProductCard network now random (Some clothing) (Some model)
    outputFilename state
  = (generateProductCard_settle now random
       (network (requestOf clothing model outputFilename))
       {| isGenerating := true;
          generatedCards := generatedCards state;
          error := None |},
     [requestOf clothing model outputFilename]).
Proof.
  intros Hc Hm. unfold generateProductCard, generateProductCard_begin.
  now rewrite (validate_images _ _ Hc Hm).
Qed.

(** Whatever the store holds when the call settles on a rejection, the
    cards stay and the flag is cleared. *)
Lemma generateProductCard_settle_rejected
    (fetched : Settled Response) (e : Thrown) (state : ProductStore) :
  generateProductListing fetched = Rejected e ->
  generateProductCard_settle now random fetched state = onCatch e state.
Proof.
  intros H. unfold generateProductCard_settle. now rewrite H.
Qed.

(** Whatever the store holds when the call settles on a response, the
    new card goes in front of the cards of that moment. *)
Lemma generateProductCard_settle_fulfilled
    (fetched : Settled Response) (apiResponse : ApiResponse.t)
    (state : ProductStore) :
  generateProductListing fetched = Fulfilled apiResponse ->
  generateProductCard_settle now random fetched state
  = {| isGenerating := false;
       generatedCards :=
         mapApiResponseToProductCard now random apiResponse
         :: generatedCards state;
       error := None |}.
Proof.
  intros H. unfold generateProductCard_settle. now rewrite H.
Qed.

End Store.

(** An image of a wrong type ends the call at once: the clothing image
    is looked at first, then the model image. *)
Lemma generateProductCard_bad_type
    (network : Network) (now : Z) (random : Q) (clothing model : File.t)
    (outputFilename : option string) (state : ProductStore) :
  let outcome (message : string) :=
    generateProductCard network now random (Some clothing) (Some model)
      outputFilename state
    = ({| isGenerating := false;
          generatedCards := generatedCards state;
          error := Some message |}, []) /\
    generateProductCard_begin (Some clothing) (Some model) outputFilename
      state
    = Finished {| isGenerating := false;
                  generatedCards := generatedCards state;
                  error := Some message |} in
  (~ isImageMime (File.type clothing) ->
   outcome "Clothing image must be a valid image file (jpg, jpeg, png, gif, bmp, webp)") /\
  (isImageMime (File.type clothing) -> ~ isImageMime (File.type model) ->
   outcome "Model image must be a valid image file (jpg, jpeg, png, gif, bmp, webp)").
Proof.
  intros outcome. subst outcome. cbv beta. split.
  - intros Hc.
    destruct (generateProductCard_invalid network now random
                (Some clothing) (Some model) outputFilename state
                "Clothing image must be a valid image file (jpg, jpeg, png, gif, bmp, webp)")
      as [Hbegin Hrun]; [|now split].
    unfold validate. apply allowedTypes_not in Hc. now rewrite Hc.
  - intros Hc Hm.
    destruct (generateProductCard_invalid network now random
                (Some clothing) (Some model) outputFilename state
                "Model image must be a valid image file (jpg, jpeg, png, gif, bmp, webp)")
      as [Hbegin Hrun]; [|now split].
    unfold validate. apply allowedTypes_iff in Hc.
    apply allowedTypes_not in Hm. now rewrite Hc, Hm.
Qed.

(** C2: when the declared type of either image is not one of the six
    image types, the call sends no request, the error names the image
    that failed (the clothing image when it fails, otherwise the model
    image), the cards are unchanged and [isGenerating] ends false. *)
Theorem generateProductCard_rejects_non_image
    (network : Network) (now : Z) (random : Q) (clothing model : File.t)
    (outputFilename : option string) (state : ProductStore) :
  ~ isImageMime (File.type clothing) \/ ~ isImageMime (File.type model) ->
  exists message,
    generateProductCard network now random (Some clothing) (Some model)
      outputFilename state
    = ({| isGenerating := false;
          generatedCards := generatedCards state;
          error := Some message |}, []) /\
    generateProductCard_begin (Some clothing) (Some model) outputFilename
      state
    = Finished {| isGenerating := false;
                  generatedCards := generatedCards state;
                  error := Some message |} /\
    (~ isImageMime (File.type clothing) ->
     message = "Clothing image must be a valid image file (jpg, jpeg, png, gif, bmp, webp)") /\
    (isImageMime (File.type clothing) ->
     message = "Model image must be a valid image file (jpg, jpeg, png, gif, bmp, webp)").
Proof.
  intros Hbad.
  destruct (generateProductCard_bad_type network now random clothing model
              outputFilename state) as [Hclothing Hmodel].
  destruct (isImageMime_dec (File.type clothing)) as [Hc | Hc].
  - destruct Hbad as [Hbad | Hm]; [contradiction|].
    destruct (Hmodel Hc Hm) as [Hrun Hbegin].
    eexists. split; [exact Hrun|]. split; [exact Hbegin|].
    split; [intros Hn; contradiction | reflexivity].
  - destruct (Hclothing Hc) as [Hrun Hbegin].
    eexists. split; [exact Hrun|]. split; [exact Hbegin|].
    split; [reflexivity | intros Hn; contradiction].
Qed.


Lemma generateProductCard_rejects_non_image_witness :
  (~ isImageMime (File.type shirtPhoto)
   \/ ~ isImageMime (File.type notesDocument)) /\
  exists message,
    generateProductCard serviceUp 1700000000123 (1 # 2)
      (Some shirtPhoto) (Some notesDocument) None usedStore
    = ({| isGenerating := false;
          generatedCards := generatedCards usedStore;
          error := Some message |}, []) /\
    message = "Model image must be a valid image file (jpg, jpeg, png, gif, bmp, webp)".
Proof.
  assert (Hbad : ~ isImageMime (File.type shirtPhoto)
                 \/ ~ isImageMime (File.type notesDocument))
    by (right; apply allowedTypes_not; reflexivity).
  split; [exact Hbad|].
  destruct (generateProductCard_rejects_non_image serviceUp 1700000000123
              (1 # 2) shirtPhoto notesDocument None usedStore Hbad)
    as [message [Hrun [_ [_ Hmodel]]]].
  exists message. split; [exact Hrun|].
  apply Hmodel. apply allowedTypes_iff. reflexivity.
Defined.


(** C4: when an attempt succeeds, the cards afterwards are the new card
    followed by the cards before, so the new card is at index 0 and every
    earlier card keeps its content and its place after the others; the
    error is cleared and [isGenerating] is false. *)
Theorem generateProductCard_success
    (network : Network) (now : Z) (random : Q) (clothing model : File.t)
    (outputFilename : option string) (state : ProductStore)
    (response : Response) (apiResponse : ApiResponse.t) :
  isImageMime (File.type clothing) -> isImageMime (File.type model) ->
  network (requestOf clothing model outputFilename) = Fulfilled response ->
  200 <= status response <= 299 ->
  json response = Fulfilled apiResponse ->
  let newCard := mapApiResponseToProductCard now random apiResponse in
  let final :=
    fst (generateProductCard network now random (Some clothing) (Some model)
           outputFilename state) in
  final = {| isGenerating := false;
             generatedCards := newCard :: generatedCards state;
             error := None |} /\
  nth_error (generatedCards final) 0 = Some newCard /\
  (forall i, nth_error (generatedCards final) (S i)
             = nth_error (generatedCards state) i).
Proof.
  intros Hc Hm Hnet Hstatus Hjson newCard final.
  assert (Hfinal : final = {| isGenerating := false;
                              generatedCards := newCard :: generatedCards state;
                              error := None |}).
  { subst final. rewrite (generateProductCard_valid _ _ _ _ _ _ _ Hc Hm).
    simpl fst.
    rewrite (generateProductCard_settle_fulfilled _ _ _ apiResponse);
      [reflexivity|].
    rewrite Hnet. unfold generateProductListing, bind.
    apply ok_iff in Hstatus. now rewrite Hstatus. }
  rewrite Hfinal. split; [reflexivity|]. split; [reflexivity|].
  intros i. reflexivity.
Qed.

Lemma generateProductCard_success_witness :
  let final :=
    fst (generateProductCard serviceUp 1700000000123 (1 # 2)
           (Some shirtPhoto) (Some modelPhoto) (Some "listing.png")
           usedStore) in
  final = {| isGenerating := false;
             generatedCards :=
               ProductCard.mk "1700000000123" "Premium Straw Hat" "$135.00"
                 "A classic straw wide-brim hat with leather trim."
                 ["handmade"; "luxury"]
                 "http://localhost:8000/generated_images/listing.png"
                 "http://localhost:8000/generated_images/listing.png"
               :: generatedCards usedStore;
             error := None |}.
Proof.
  refine (proj1 (generateProductCard_success serviceUp 1700000000123 (1 # 2)
                   shirtPhoto modelPhoto (Some "listing.png") usedStore
                   {| status := 200; statusText := "OK";
                      text := Fulfilled "{}";
                      json := Fulfilled strawHatAnalysis |}
                   strawHatAnalysis _ _ _ _ _)).
  - apply allowedTypes_iff. reflexivity.
  - apply allowedTypes_iff. reflexivity.
  - reflexivity.
  - simpl. lia.
  - reflexivity.
Defined.

(** C8: [clearCards] empties the cards, clears the error and keeps
    [isGenerating] as it is, true or false. *)
Theorem clearCards_spec (state : ProductStore) :
  clearCards state = {| isGenerating := isGenerating state;
                        generatedCards := [];
                        error := None |} /\
  generatedCards (clearCards state) = [] /\
  error (clearCards state) = None /\
  isGenerating (clearCards state) = isGenerating state.
Proof. repeat split. Qed.

(** C10: with two valid images, the empty string as output name gives the
    same request as no output name, and that request has no
    [output_filename] part; the part is in the body exactly when the name
    is a string that is not empty. *)
Theorem generateProductCard_empty_output_name
    (network : Network) (now : Z) (random : Q) (clothing model : File.t)
    (state : ProductStore) :
  isImageMime (File.type clothing) -> isImageMime (File.type model) ->
  let run outputFilename :=
    generateProductCard network now random (Some clothing) (Some model)
      outputFilename state in
  run (Some "") = run None /\
  snd (run (Some "")) = [requestOf clothing model None] /\
  body (requestOf clothing model None)
  = [("clothing_image", FileValue clothing);
     ("model_image", FileValue model)] /\
  (forall outputFilename value,
     In ("output_filename", value)
        (body (requestOf clothing model outputFilename)) <->
     exists name, outputFilename = Some name /\ name <> "" /\
                  value = TextValue name).
Proof.
  intros Hc Hm run. subst run. cbv beta.
  rewrite !(generateProductCard_valid _ _ _ _ _ _ _ Hc Hm).
  split; [reflexivity|]. split; [reflexivity|]. split; [reflexivity|].
  intros [name|] value; unfold requestOf, formDataOf, truthy; simpl.
  - destruct (String.eqb_spec name "") as [-> | Hname]; simpl.
    + split.
      * intros [H | [H | []]]; discriminate H.
      * intros [name [Hsome [Hne _]]]. injection Hsome as <-. now destruct Hne.
    + split.
      * intros [H | [H | [H | []]]]; try discriminate H.
        injection H as <-. now exists name.
      * intros [name' [Hsome [_ ->]]]. injection Hsome as ->.
        right. right. now left.
  - split.
    + intros [H | [H | []]]; discriminate H.
    + intros [name [Hsome _]]. discriminate Hsome.
Qed.

Lemma generateProductCard_empty_output_name_witness :
  generateProductCard serviceUp 1700000000123 (1 # 2)
    (Some shirtPhoto) (Some modelPhoto) (Some "") usedStore
  = generateProductCard serviceUp 1700000000123 (1 # 2)
      (Some shirtPhoto) (Some modelPhoto) None usedStore.
Proof.
  refine (proj1 (generateProductCard_empty_output_name serviceUp
                   1700000000123 (1 # 2) shirtPhoto modelPhoto usedStore
                   _ _)); apply allowedTypes_iff; reflexivity.
Defined.

(** ** Further facts about the store *)

(** A thrown value that is no [Error] is reported by the generic
    message. *)
Lemma generateProductCard_settle_not_an_error
    (now : Z) (random : Q) (state : ProductStore) :
  generateProductCard_settle now random (Rejected NotAnError) state
  = {| isGenerating := false;
       generatedCards := generatedCards state;
       error := Some "Failed to generate product card" |}.
Proof. reflexivity. Qed.

(** [setError] changes the error alone. *)
Lemma setError_spec (message : option string) (state : ProductStore) :
  setError message state = {| isGenerating := isGenerating state;
                              generatedCards := generatedCards state;
                              error := message |}.
Proof. reflexivity. Qed.

(** X6: two attempts in flight at the same time: the store does not
    refuse the second one, and when both succeed both cards are kept, the
    one that settled last in front. *)
Lemma overlapping_attempts_keep_both_cards
    (now1 now2 : Z) (random1 random2 : Q)
    (clothing1 model1 clothing2 model2 : File.t)
    (fetched1 fetched2 : Settled Response)
    (api1 api2 : ApiResponse.t) (state : ProductStore) :
  isImageMime (File.type clothing1) -> isImageMime (File.type model1) ->
  isImageMime (File.type clothing2) -> isImageMime (File.type model2) ->
  generateProductListing fetched1 = Fulfilled api1 ->
  generateProductListing fetched2 = Fulfilled api2 ->
  exists started1 request1 started2 request2,
    generateProductCard_begin (Some clothing1) (Some model1) None state
    = Awaiting started1 request1 /\
    generateProductCard_begin (Some clothing2) (Some model2) None started1
    = Awaiting started2 request2 /\
    generateProductCard_settle now1 random1 fetched1
      (generateProductCard_settle now2 random2 fetched2 started2)
    = {| isGenerating := false;
         generatedCards :=
           mapApiResponseToProductCard now1 random1 api1
           :: mapApiResponseToProductCard now2 random2 api2
           :: generatedCards state;
         error := None |}.
Proof.
  intros Hc1 Hm1 Hc2 Hm2 H1 H2.
  unfold generateProductCard_begin.
  rewrite (validate_images _ _ Hc1 Hm1), (validate_images _ _ Hc2 Hm2).
  do 4 eexists. split; [reflexivity|]. split; [reflexivity|].
  now rewrite (generateProductCard_settle_fulfilled _ _ _ _ _ H2),
              (generateProductCard_settle_fulfilled _ _ _ _ _ H1).
Qed.

(** * Further properties of the store and the page *)

(** ** The API client *)

(** X1: [generateProductListing] yields an analysis exactly when [fetch]
    yields a response with a status from 200 to 299 whose [json()] yields
    that analysis. *)
Theorem generateProductListing_fulfilled_iff
    (fetched : Settled Response) (apiResponse : ApiResponse.t) :
  generateProductListing fetched = Fulfilled apiResponse <->
  exists response,
    fetched = Fulfilled response /\
    200 <= status response <= 299 /\
    json response = Fulfilled apiResponse.
Proof.
  unfold generateProductListing, bind. split.
  - destruct fetched as [response | e]; [|discriminate].
    destruct (ok response) eqn:Hok; simpl.
    + intros Hjson. exists response. apply ok_iff in Hok. now repeat split.
    + destruct (text response); discriminate.
  - intros [response [-> [Hstatus Hjson]]].
    apply ok_iff in Hstatus. now rewrite Hstatus.
Qed.

(** X2: [generateProductListing] throws [e] in exactly four ways: [fetch]
    threw [e]; the status is outside 200 to 299 and reading the body
    threw [e]; the status is outside 200 to 299 and [e] is the error
    "API call failed: <status> <status text> - <body>"; or the status is
    a success and [json()] threw [e]. *)
Theorem generateProductListing_rejected_iff
    (fetched : Settled Response) (e : Thrown) :
  generateProductListing fetched = Rejected e <->
  fetched = Rejected e \/
  exists response,
    fetched = Fulfilled response /\
    ((~ 200 <= status response <= 299 /\ text response = Rejected e) \/
     (~ 200 <= status response <= 299 /\
      exists errorText,
        text response = Fulfilled errorText /\
        e = JsError ("API call failed: "
                     ++ JS.numberToString (status response) ++ " "
                     ++ statusText response ++ " - " ++ errorText)) \/
     (200 <= status response <= 299 /\ json response = Rejected e)).
Proof.
  unfold generateProductListing, bind, throwError. split.
  - destruct fetched as [response | e']; [|intros [= ->]; now left].
    intros H. right. exists response. split; [reflexivity|].
    destruct (ok response) eqn:Hok; simpl in H.
    + right. right. apply ok_iff in Hok. now split.
    + assert (Hbad : ~ 200 <= status response <= 299)
        by (intros Hin; apply ok_iff in Hin; congruence).
      destruct (text response) as [errorText | e'] eqn:Htext.
      * injection H as <-. right. left. split; [assumption|].
        now exists errorText.
      * injection H as <-. left. now split.
  - intros [-> | [response [-> [[Hbad Htext] | [[Hbad [errorText [Htext ->]]]
                                               | [Hgood Hjson]]]]]].
    + reflexivity.
    + assert (Hok : ok response = false)
        by (apply not_true_is_false; intros H; now apply Hbad, ok_iff).
      now rewrite Hok, Htext.
    + assert (Hok : ok response = false)
        by (apply not_true_is_false; intros H; now apply Hbad, ok_iff).
      now rewrite Hok, Htext.
    + apply ok_iff in Hgood. now rewrite Hgood.
Qed.

(** ** Whole calls of [generateProductCard] *)

Section WholeCall.

Variable network : Network.
Variable now : Z.
Variable random : Q.

(** The [catch] clause and the success branch seen from any store. *)
Lemma generateProductCard_settle_cases
    (fetched : Settled Response) (state : ProductStore) :
  let final := generateProductCard_settle now random fetched state in
  isGenerating final = false /\
  ((exists apiResponse,
      generateProductListing fetched = Fulfilled apiResponse /\
      error final = None /\
      generatedCards final
      = mapApiResponseToProductCard now random apiResponse
        :: generatedCards state) \/
   (exists message,
      error final = Some message /\
      generatedCards final = generatedCards state)).
Proof.
  unfold generateProductCard_settle.
  destruct (generateProductListing fetched) as [apiResponse | e]; simpl.
  - split; [reflexivity|]. left. now exists apiResponse.
  - split; [reflexivity|]. right. now eexists.
Qed.

Lemma validate_fulfilled_iff (clothingImage modelImage : option File.t)
    (clothing model : File.t) :
  validate clothingImage modelImage = Fulfilled (clothing, model) <->
  clothingImage = Some clothing /\ modelImage = Some model /\
  isImageMime (File.type clothing) /\ isImageMime (File.type model).
Proof.
  split.
  - unfold validate.
    destruct clothingImage as [c|]; [|discriminate].
    destruct modelImage as [m|]; [|discriminate].
    destruct (JS.arrayIncludes allowedTypes (File.type c)) eqn:Hc;
      [|discriminate].
    destruct (JS.arrayIncludes allowedTypes (File.type m)) eqn:Hm;
      [|discriminate].
    simpl. intros [= <- <-]. apply allowedTypes_iff in Hc, Hm.
    now repeat split.
  - intros [-> [-> [Hc Hm]]]. now apply validate_images.
Qed.

Lemma validate_rejected_message (clothingImage modelImage : option File.t)
    (e : Thrown) :
  validate clothingImage modelImage = Rejected e ->
  exists message, e = JsError message.
Proof.
  unfold validate, throwError.
  destruct clothingImage as [c|]; [|intros [= <-]; now eexists].
  destruct modelImage as [m|]; [|intros [= <-]; now eexists].
  destruct (JS.arrayIncludes allowedTypes (File.type c)); cbn [negb];
    [|intros [= <-]; now eexists].
  destruct (JS.arrayIncludes allowedTypes (File.type m)); cbn [negb];
    [discriminate | intros [= <-]; now eexists].
Qed.

End WholeCall.

(** X3: whatever the images, the network and the store, a whole call ends
    with [isGenerating] false and in one of two ways: the error is null
    and exactly one card was put in front of the old cards, or the error
    is a message and the cards are the old ones.  No card is ever lost or
    changed. *)
Theorem generateProductCard_outcome
    (network : Network) (now : Z) (random : Q)
    (clothingImage modelImage : option File.t)
    (outputFilename : option string) (state : ProductStore) :
  let final :=
    fst (generateProductCard network now random clothingImage modelImage
           outputFilename state) in
  isGenerating final = false /\
  ((error final = None /\
    exists card, generatedCards final = card :: generatedCards state) \/
   (exists message,
      error final = Some message /\
      generatedCards final = generatedCards state)).
Proof.
  unfold generateProductCard, generateProductCard_begin.
  destruct (validate clothingImage modelImage) as [[clothing model] | e] eqn:Hv.
  - simpl fst.
    destruct (generateProductCard_settle_cases now random
                (network (requestOf clothing model outputFilename))
                (set {| setIsGenerating := Some true;
                        setGeneratedCards := None;
                        setErrorField := Some None |} state))
      as [Hflag [[api [_ [Herr Hcards]]] | [message [Herr Hcards]]]].
    + split; [exact Hflag|]. left. split; [exact Herr|].
      eexists. exact Hcards.
    + split; [exact Hflag|]. right. exists message.
      split; [exact Herr | exact Hcards].
  - simpl. split; [reflexivity|]. right. now eexists.
Qed.

(** X4: a whole call sends a request exactly when both images are present
    and of an image type; it then sends one request only, the one built
    from these two images and the output name, as a POST to the listing
    endpoint. *)
Theorem generateProductCard_requests
    (network : Network) (now : Z) (random : Q)
    (clothingImage modelImage : option File.t)
    (outputFilename : option string) (state : ProductStore) :
  let requests :=
    snd (generateProductCard network now random clothingImage modelImage
           outputFilename state) in
  (requests = [] \/
   exists clothing model,
     clothingImage = Some clothing /\ modelImage = Some model /\
     requests = [requestOf clothing model outputFilename] /\
     url (requestOf clothing model outputFilename)
     = "http://localhost:8000/generate-product-listing" /\
     method (requestOf clothing model outputFilename) = "POST") /\
  (requests <> [] <->
   exists clothing model,
     clothingImage = Some clothing /\ modelImage = Some model /\
     isImageMime (File.type clothing) /\ isImageMime (File.type model)).
Proof.
  unfold generateProductCard, generateProductCard_begin.
  destruct (validate clothingImage modelImage) as [[clothing model] | e] eqn:Hv.
  - simpl snd. apply validate_fulfilled_iff in Hv.
    destruct Hv as [Hc [Hm [Htc Htm]]]. split.
    + right. exists clothing, model. now repeat split.
    + split; [intros _; now exists clothing, model | discriminate].
  - simpl snd. split; [now left|]. split; [intros H; now destruct H|].
    intros [clothing [model H]]. apply validate_fulfilled_iff in H.
    congruence.
Qed.

(** X5: the result of a whole call depends on the store only through its
    cards: an old error or an old [isGenerating] flag never shows in the
    final store. *)
Theorem generateProductCard_forgets_flags
    (network : Network) (now : Z) (random : Q)
    (clothingImage modelImage : option File.t)
    (outputFilename : option string) (state1 state2 : ProductStore) :
  generatedCards state1 = generatedCards state2 ->
  generateProductCard network now random clothingImage modelImage
    outputFilename state1
  = generateProductCard network now random clothingImage modelImage
      outputFilename state2.
Proof.
  intros Hcards.
  unfold generateProductCard, generateProductCard_begin,
    generateProductCard_settle, onCatch, setWith, set.
  simpl. rewrite Hcards.
  destruct (validate clothingImage modelImage) as [[clothing model] | e];
    [|reflexivity].
  destruct (generateProductListing
              (network (requestOf clothing model outputFilename)));
    reflexivity.
Qed.

Lemma generateProductCard_forgets_flags_witness :
  generateProductCard serviceUp 1700000000123 (1 # 2)
    (Some shirtPhoto) (Some modelPhoto) None usedStore
  = generateProductCard serviceUp 1700000000123 (1 # 2)
      (Some shirtPhoto) (Some modelPhoto) None
      {| isGenerating := true;
         generatedCards := generatedCards usedStore;
         error := None |}.
Proof.
  apply (generateProductCard_forgets_flags serviceUp 1700000000123 (1 # 2)
           (Some shirtPhoto) (Some modelPhoto) None usedStore).
  reflexivity.
Defined.

Lemma overlapping_attempts_keep_both_cards_witness :
  exists started1 request1 started2 request2,
    generateProductCard_begin (Some shirtPhoto) (Some modelPhoto) None
      usedStore
    = Awaiting started1 request1 /\
    generateProductCard_begin (Some modelPhoto) (Some shirtPhoto) None
      started1
    = Awaiting started2 request2 /\
    generateProductCard_settle 1700000000500 (1 # 4)
      (serviceUp request1)
      (generateProductCard_settle 1700000000123 (1 # 2)
         (serviceUp request2) started2)
    = {| isGenerating := false;
         generatedCards :=
           mapApiResponseToProductCard 1700000000500 (1 # 4)
             strawHatAnalysis
           :: mapApiResponseToProductCard 1700000000123 (1 # 2)
                strawHatAnalysis
           :: generatedCards usedStore;
         error := None |}.
Proof.
  destruct (overlapping_attempts_keep_both_cards
              1700000000500 1700000000123 (1 # 4) (1 # 2)
              shirtPhoto modelPhoto modelPhoto shirtPhoto
              (serviceUp (requestOf shirtPhoto modelPhoto None))
              (serviceUp (requestOf modelPhoto shirtPhoto None))
              strawHatAnalysis strawHatAnalysis usedStore)
    as [started1 [request1 [started2 [request2 [H1 [H2 H3]]]]]];
    try (apply allowedTypes_iff; reflexivity); try reflexivity.
  exists started1, request1, started2, request2.
  split; [exact H1|]. split; [exact H2|]. exact H3.
Defined.

(** X7: cards cleared while a call is pending stay cleared, but the call
    still delivers: [clearCards] leaves [isGenerating] true, and when the
    call then succeeds the store holds the new card alone. *)
Theorem clearCards_while_pending
    (now : Z) (random : Q) (clothing model : File.t)
    (outputFilename : option string) (state : ProductStore)
    (fetched : Settled Response) (apiResponse : ApiResponse.t) :
  isImageMime (File.type clothing) -> isImageMime (File.type model) ->
  generateProductListing fetched = Fulfilled apiResponse ->
  exists started request,
    generateProductCard_begin (Some clothing) (Some model) outputFilename
      state = Awaiting started request /\
    isGenerating (clearCards started) = true /\
    generateProductCard_settle now random fetched (clearCards started)
    = {| isGenerating := false;
         generatedCards :=
           [mapApiResponseToProductCard now random apiResponse];
         error := None |}.
Proof.
  intros Hc Hm Hlisting. unfold generateProductCard_begin.
  rewrite (validate_images _ _ Hc Hm). do 2 eexists.
  split; [reflexivity|]. split; [reflexivity|].
  now rewrite (generateProductCard_settle_fulfilled _ _ _ _ _ Hlisting).
Qed.

Lemma clearCards_while_pending_witness :
  exists started request,
    generateProductCard_begin (Some shirtPhoto) (Some modelPhoto) None
      usedStore = Awaiting started request /\
    isGenerating (clearCards started) = true /\
    generatedCards
      (generateProductCard_settle 1700000000123 (1 # 2)
         (serviceUp request) (clearCards started))
    = [mapApiResponseToProductCard 1700000000123 (1 # 2) strawHatAnalysis].
Proof.
  destruct (clearCards_while_pending 1700000000123 (1 # 2)
              shirtPhoto modelPhoto None usedStore
              (serviceUp (requestOf shirtPhoto modelPhoto None))
              strawHatAnalysis)
    as [started [request [Hbegin [Hflag Hsettle]]]];
    try (apply allowedTypes_iff; reflexivity); try reflexivity.
  exists started, request. split; [exact Hbegin|]. split; [exact Hflag|].
  injection Hbegin as <- <-. reflexivity.
Defined.

(** ** Card identifiers *)

Lemma numberToString_parse (n : Z) :
  NilZero.int_of_string (JS.numberToString n) = Some (Z.to_int n).
Proof.
  unfold JS.numberToString. apply NilZero.isi.
  - destruct n as [|p|p]; simpl; try discriminate.
    intros [= H]. now apply (DecimalPos.Unsigned.to_uint_nonnil p).
  - destruct n as [|p|p]; simpl; try discriminate.
    intros [= H]. now apply (DecimalPos.Unsigned.to_uint_nonnil p).
Qed.

Lemma numberToString_inj (a b : Z) :
  JS.numberToString a = JS.numberToString b -> a = b.
Proof.
  intros H. apply DecimalZ.to_int_inj.
  pose proof (numberToString_parse a) as Ha.
  rewrite H, numberToString_parse in Ha. now injection Ha.
Qed.

(** X8: two cards have the same identifier exactly when they were mapped
    at the same value of [Date.now()], whatever the responses. *)
Theorem card_id_equal_iff
    (now1 now2 : Z) (random1 random2 : Q) (api1 api2 : ApiResponse.t) :
  ProductCard.id (mapApiResponseToProductCard now1 random1 api1)
  = ProductCard.id (mapApiResponseToProductCard now2 random2 api2)
  <-> now1 = now2.
Proof.
  simpl. split; [apply numberToString_inj | now intros ->].
Qed.

(** X9: when every card of the store carries the rendering of a time
    before [now] and the identifiers are distinct, they are still
    distinct after a call that settles at [now], and every identifier is
    the rendering of a time up to [now]. *)
Theorem generateProductCard_settle_keeps_ids_distinct
    (now : Z) (random : Q) (fetched : Settled Response)
    (state : ProductStore) :
  NoDup (map ProductCard.id (generatedCards state)) ->
  Forall (fun card => exists time,
            time < now /\ ProductCard.id card = JS.numberToString time)
         (generatedCards state) ->
  let final := generateProductCard_settle now random fetched state in
  NoDup (map ProductCard.id (generatedCards final)) /\
  Forall (fun card => exists time,
            time <= now /\ ProductCard.id card = JS.numberToString time)
         (generatedCards final).
Proof.
  intros Hnodup Hpast final.
  assert (Hweak : Forall (fun card => exists time,
                    time <= now /\ ProductCard.id card = JS.numberToString time)
                    (generatedCards state)).
  { eapply Forall_impl; [|exact Hpast].
    intros card [time [Hlt Hid]]. exists time. split; [lia | exact Hid]. }
  subst final. unfold generateProductCard_settle.
  destruct (generateProductListing fetched) as [apiResponse | e]; simpl.
  - split.
    + constructor; [|exact Hnodup]. intros Hin.
      apply in_map_iff in Hin. destruct Hin as [card [Hid Hcard]].
      rewrite Forall_forall in Hpast.
      destruct (Hpast card Hcard) as [time [Hlt Htime]].
      rewrite Htime in Hid. apply numberToString_inj in Hid. lia.
    + constructor; [|exact Hweak]. exists now. split; [lia | reflexivity].
  - split; assumption.
Qed.

Lemma generateProductCard_settle_keeps_ids_distinct_witness :
  NoDup (map ProductCard.id
           (generatedCards
              (generateProductCard_settle 1700000000123 (1 # 2)
                 (serviceUp (requestOf shirtPhoto modelPhoto None))
                 usedStore))).
Proof.
  refine (proj1 (generateProductCard_settle_keeps_ids_distinct
                   1700000000123 (1 # 2)
                   (serviceUp (requestOf shirtPhoto modelPhoto None))
                   usedStore _ _)).
  - simpl. constructor; [intros [] | constructor].
  - simpl. constructor; [|constructor].
    exists 1700000000000. split; [lia | reflexivity].
Defined.

(** ** More about the product name *)

Section NameFacts.

Lemma freeOf_app (c : ascii) (a b : string) :
  freeOf c (a ++ b) <-> freeOf c a /\ freeOf c b.
Proof.
  induction a as [|x a IH]; simpl.
  - split; [intros H; split; [intros [] | exact H] | now intros [_ H]].
  - rewrite !freeOf_cons, IH. tauto.
Qed.

Lemma freeOf_concat (c : ascii) (sep : string) (pieces : list string) :
  freeOf c sep -> Forall (freeOf c) pieces -> freeOf c (concat sep pieces).
Proof.
  intros Hsep Hpieces. induction Hpieces as [|p rest Hp Hrest IH].
  - intros [].
  - destruct rest as [|q rest]; [exact Hp|].
    change (concat sep (p :: q :: rest))
      with (p ++ sep ++ concat sep (q :: rest)).
    rewrite !freeOf_app. now repeat split.
Qed.

Lemma freeOf_pieces (c sep : ascii) (s : string) :
  freeOf c s -> Forall (freeOf c) (JS.split sep s).
Proof.
  induction s as [|x s IH]; intros H; simpl.
  - constructor; [exact H | constructor].
  - apply freeOf_cons in H. destruct H as [Hx Hs]. specialize (IH Hs).
    destruct (Ascii.eqb x sep).
    + constructor; [intros [] | exact IH].
    + destruct (JS.split sep s) as [|piece rest].
      * constructor; [|constructor]. apply freeOf_cons.
        split; [exact Hx | intros []].
      * inversion IH; subst. constructor; [|assumption].
        apply freeOf_cons. now split.
Qed.

Lemma Forall_firstn_keep {A : Type} (P : A -> Prop) (n : nat) (xs : list A) :
  Forall P xs -> Forall P (firstn n xs).
Proof.
  intros H. revert n. induction H as [|x xs Hx Hxs IH]; intros [|n]; simpl;
    constructor; auto.
Qed.

(** Upper-casing a character yields a period or a space only from a
    period or a space. *)
Lemma upperChar_keeps_separators (c : ascii) :
  (JS.upperChar c = "."%char -> c = "."%char) /\
  (JS.upperChar c = " "%char -> c = " "%char).
Proof.
  destruct c as [[|] [|] [|] [|] [|] [|] [|] [|]];
    split; intros H; (reflexivity || discriminate H).
Qed.

Lemma capitalize_freeOf (c : ascii) (word : string) :
  c = "."%char \/ c = " "%char ->
  freeOf c word -> freeOf c (capitalize word).
Proof.
  intros Hc Hword. destruct word as [|x word]; [exact Hword|].
  rewrite capitalize_cons. apply freeOf_cons in Hword.
  destruct Hword as [Hx Hrest]. apply freeOf_cons. split; [|exact Hrest].
  intros Hup. apply Hx.
  destruct (upperChar_keeps_separators x) as [Hdot Hspace].
  destruct Hc as [-> | ->]; [now apply Hdot | now apply Hspace].
Qed.

Lemma firstSentence_free (description : string) :
  freeOf "." (firstSentence description).
Proof.
  now destruct (proj2 (sentenceOf_firstSentence description
                         (firstSentence description)) eq_refl).
Qed.

(** The words of the fallback name. *)
Lemma fallback_words_free (c : ascii) (sentence : string) :
  c = "."%char \/ c = " "%char ->
  Forall (freeOf c) (JS.split " " sentence) ->
  Forall (freeOf c) (map capitalize (firstn 3 (JS.split " " sentence))).
Proof.
  intros Hc Hpieces. apply Forall_map.
  eapply Forall_impl; [|apply Forall_firstn_keep; exact Hpieces].
  intros word. now apply capitalize_freeOf.
Qed.

End NameFacts.

(** X10: the product name depends on the first sentence only: text after
    the first period, keywords included, does not change it. *)
Theorem extractProductName_ignores_rest (sentence rest : string) :
  freeOf "." sentence ->
  extractProductName (sentence ++ String "." rest)
  = extractProductName sentence.
Proof.
  intros Hfree. unfold extractProductName, firstSentence.
  now rewrite (split_app_sep "." sentence rest Hfree),
              (split_free "." sentence Hfree).
Qed.

Lemma extractProductName_ignores_rest_witness :
  extractProductName ("Blue linen scarf" ++ ". Goes well with a hat.")
  = extractProductName "Blue linen scarf".
Proof.
  apply (extractProductName_ignores_rest "Blue linen scarf"
           " Goes well with a hat.").
  unfold freeOf. simpl. intros H.
  repeat (destruct H as [H | H]; [discriminate H|]). exact H.
Defined.

(** X11: whatever the description, the product name contains no period. *)
Theorem extractProductName_has_no_period (description : string) :
  freeOf "." (extractProductName description).
Proof.
  unfold extractProductName.
  repeat match goal with
         | |- context [if ?b then _ else _] => destruct b
         end;
    try (unfold freeOf; simpl; intros H;
         repeat (destruct H as [H | H]; [discriminate H|]); exact H).
  unfold JS.join, JS.sliceTo. apply freeOf_concat.
  - unfold freeOf. simpl. intros [H | []]. discriminate H.
  - apply fallback_words_free; [now left|].
    apply freeOf_pieces, firstSentence_free.
Qed.



(** ** More about the price *)

Section PriceFacts.

Lemma generatePrice_numeric (random : Q) (description : string)
    (tags : list string) :
  numericPart (generatePrice random description tags)
  = Some (Z.max (basePriceOf description tags + variationOf random) 25) /\
  matchesPricePattern (generatePrice random description tags) = true.
Proof.
  unfold generatePrice. cbv zeta.
  destruct (price_format
              (Z.max (basePriceOf description tags + variationOf random) 25))
    as [Hmatch Hnum]; [lia|].
  now split.
Qed.

Lemma arrayIncludes_same_elements (xs ys : list string) (x : string) :
  (forall y, In y xs <-> In y ys) ->
  JS.arrayIncludes xs x = JS.arrayIncludes ys x.
Proof.
  intros Hsame. apply eq_true_iff_eq.
  now rewrite !arrayIncludes_In.
Qed.

Lemma arrayIncludes_app (xs ys : list string) (x : string) :
  JS.arrayIncludes (xs ++ ys) x
  = (JS.arrayIncludes xs x || JS.arrayIncludes ys x)%bool.
Proof. unfold JS.arrayIncludes. apply existsb_app. Qed.

Lemma basePriceOf_more_tags (description : string) (tags more : list string) :
  basePriceOf description tags <= basePriceOf description (tags ++ more).
Proof.
  unfold basePriceOf. cbv zeta. rewrite map_app, !arrayIncludes_app.
  generalize (JS.arrayIncludes (map JS.toLowerCase tags) "luxury"),
    (JS.arrayIncludes (map JS.toLowerCase tags) "designer"),
    (JS.arrayIncludes (map JS.toLowerCase tags) "handmade"),
    (JS.arrayIncludes (map JS.toLowerCase tags) "artisan"),
    (JS.arrayIncludes (map JS.toLowerCase more) "luxury"),
    (JS.arrayIncludes (map JS.toLowerCase more) "designer"),
    (JS.arrayIncludes (map JS.toLowerCase more) "handmade"),
    (JS.arrayIncludes (map JS.toLowerCase more) "artisan").
  intros l1 d1 h1 a1 l2 d2 h2 a2.
  destruct (JS.includes (JS.toLowerCase description) "hat");
  destruct (JS.includes (JS.toLowerCase description) "premium"
            || JS.includes (JS.toLowerCase description) "classic")%bool;
  destruct (JS.includes (JS.toLowerCase description) "straw"
            && JS.includes (JS.toLowerCase description) "wide-brim")%bool;
  destruct l1, d1, h1, a1, l2, d2, h2, a2; simpl; lia.
Qed.

End PriceFacts.

(** X13: for every description, tag list and draw, the price matches the
    pattern and its numeric part lies between 35 and 149. *)
Theorem generatePrice_range
    (random : Q) (description : string) (tags : list string) :
  (0 <= random)%Q -> (random < 1)%Q ->
  matchesPricePattern (generatePrice random description tags) = true /\
  exists n, numericPart (generatePrice random description tags) = Some n /\
            35 <= n <= 149.
Proof.
  intros H0 H1.
  destruct (generatePrice_numeric random description tags) as [Hnum Hmatch].
  split; [exact Hmatch|]. eexists. split; [exact Hnum|].
  pose proof (basePriceOf_range description tags).
  pose proof (variationOf_range random H0 H1). lia.
Qed.

Lemma generatePrice_range_witness :
  exists n,
    numericPart (generatePrice (199 # 200) "premium straw wide-brim cap"
                   ["Luxury"; "Artisan"]) = Some n /\
    35 <= n <= 149.
Proof.
  apply (generatePrice_range (199 # 200) "premium straw wide-brim cap"
           ["Luxury"; "Artisan"]); unfold Qle, Qlt; simpl; lia.
Defined.

(** X14: the price looks at the tags as a set: two tag lists with the
    same elements, in any order and with any repetitions, give the same
    price for the same draw. *)
Theorem generatePrice_tags_as_set
    (random : Q) (description : string) (tags1 tags2 : list string) :
  (forall tag, In tag tags1 <-> In tag tags2) ->
  generatePrice random description tags1
  = generatePrice random description tags2.
Proof.
  intros Hsame.
  assert (Hlower : forall tag, In tag (map JS.toLowerCase tags1)
                               <-> In tag (map JS.toLowerCase tags2)).
  { intros tag. rewrite !in_map_iff.
    split; intros [t [Ht Hin]]; exists t; (split; [exact Ht|]);
      now apply Hsame. }
  unfold generatePrice, basePriceOf. cbv zeta.
  now rewrite !(arrayIncludes_same_elements _ _ _ Hlower).
Qed.

Lemma generatePrice_tags_as_set_witness :
  generatePrice (1 # 2) "silk scarf" ["luxury"; "handmade"; "luxury"]
  = generatePrice (1 # 2) "silk scarf" ["handmade"; "luxury"].
Proof.
  apply (generatePrice_tags_as_set (1 # 2) "silk scarf"
           ["luxury"; "handmade"; "luxury"] ["handmade"; "luxury"]).
  intros tag. simpl. tauto.
Defined.

(** X15: more tags never make the price lower: for the same description
    and the same draw, the numeric part with the tags [tags ++ more] is
    at least the one with [tags]. *)
Theorem generatePrice_more_tags
    (random : Q) (description : string) (tags more : list string) :
  exists n1 n2,
    numericPart (generatePrice random description tags) = Some n1 /\
    numericPart (generatePrice random description (tags ++ more)) = Some n2 /\
    n1 <= n2.
Proof.
  destruct (generatePrice_numeric random description tags) as [H1 _].
  destruct (generatePrice_numeric random description (tags ++ more))
    as [H2 _].
  do 2 eexists. split; [exact H1|]. split; [exact H2|].
  pose proof (basePriceOf_more_tags description tags more). lia.
Qed.

(** X16: for every description and tag list, each of the twenty prices
    from base - 10 to base + 9 is the price for some draw. *)
Theorem generatePrice_every_variation
    (description : string) (tags : list string) (p : Z) :
  -10 <= p <= 9 ->
  exists random,
    (0 <= random)%Q /\ (random < 1)%Q /\
    generatePrice random description tags
    = "$" ++ JS.numberToString (basePriceOf description tags + p) ++ ".00".
Proof.
  intros Hp. destruct (variationOf_onto p Hp) as [random [H0 [H1 Hvar]]].
  exists random. split; [exact H0|]. split; [exact H1|].
  unfold generatePrice. cbv zeta. rewrite Hvar.
  pose proof (basePriceOf_range description tags).
  now rewrite Z.max_l by lia.
Qed.

Lemma generatePrice_every_variation_witness :
  exists random,
    (0 <= random)%Q /\ (random < 1)%Q /\
    generatePrice random "denim jacket" ["designer"]
    = "$" ++ JS.numberToString (basePriceOf "denim jacket" ["designer"] + 7)
      ++ ".00".
Proof.
  apply (generatePrice_every_variation "denim jacket" ["designer"] 7). lia.
Defined.

(** ** The page *)

(** X17: with an image missing, [handleGenerateWithAI] returns at once and
    changes neither the page nor the store.  With both images present its
    part before the [await] either starts an API call, with no error in
    the store, or ends on the message about the type of the clothing
    image or of the model image: the check of the store for a missing
    image never fails for the page.  The message "Both clothing and model
    images are required" can reach the store only when the call settles,
    and only when the API call itself was rejected with an error of
    exactly that message. *)
Theorem handleGenerateWithAI_guard
    (timestamp : Z) (page : Page.State) (store : ProductStore) :
  let handling := Page.handleGenerateWithAI_begin timestamp page store in
  (Page.clothingImage page = None \/ Page.modelImage page = None ->
   handling = Page.Returned page store) /\
  (forall clothing model,
     Page.clothingImage page = Some clothing ->
     Page.modelImage page = Some model ->
     (exists page' store' request,
        handling = Page.Suspended page' store' request /\
        error store' = None) \/
     (exists page' store' message,
        handling = Page.Returned page' store' /\
        error store' = Some message /\
        (message = "Clothing image must be a valid image file (jpg, jpeg, png, gif, bmp, webp)" \/
         message = "Model image must be a valid image file (jpg, jpeg, png, gif, bmp, webp)"))) /\
  (forall now random fetched page0 store0,
     error (snd (Page.handleGenerateWithAI_settle now random fetched
                   page0 store0))
     = Some "Both clothing and model images are required" ->
     generateProductListing fetched
     = Rejected (JsError "Both clothing and model images are required")).
Proof.
  split; [|split].
  - unfold Page.handleGenerateWithAI_begin.
    destruct (Page.clothingImage page) as [clothing|];
      [|intros _; reflexivity].
    destruct (Page.modelImage page) as [model|];
      [|intros _; reflexivity].
    intros [H | H]; discriminate H.
  - intros clothing model Hc Hm.
    unfold Page.handleGenerateWithAI_begin. rewrite Hc, Hm.
    unfold generateProductCard_begin, validate.
    destruct (JS.arrayIncludes allowedTypes (File.type clothing));
      cbn [negb].
    + destruct (JS.arrayIncludes allowedTypes (File.type model));
        cbn [negb].
      * left. do 3 eexists. split; reflexivity.
      * right. do 3 eexists. split; [reflexivity|].
        split; [reflexivity | now right].
    + right. do 3 eexists. split; [reflexivity|].
      split; [reflexivity | now left].
  - intros now random fetched page0 store0.
    unfold Page.handleGenerateWithAI_settle, generateProductCard_settle.
    destruct (generateProductListing fetched) as [apiResponse | [message|]];
      simpl; intros H; try discriminate H.
    now injection H as ->.
Qed.

(** X18: when [handleGenerateWithAI] starts an API call, both images are
    present and of an image type, and the request carries three parts:
    the clothing image, the model image, and the output name
    "product_listing_<timestamp>.png".  The dialog is closed, the store
    shows [isGenerating] with no error and the same cards, and the two
    uploads are still selected. *)
Theorem handleGenerateWithAI_request
    (timestamp : Z) (page page' : Page.State) (store store' : ProductStore)
    (request : Request) :
  Page.handleGenerateWithAI_begin timestamp page store
  = Page.Suspended page' store' request ->
  exists clothing model,
    Page.clothingImage page = Some clothing /\
    Page.modelImage page = Some model /\
    isImageMime (File.type clothing) /\ isImageMime (File.type model) /\
    body request
    = [("clothing_image", FileValue clothing);
       ("model_image", FileValue model);
       ("output_filename",
        TextValue ("product_listing_" ++ JS.numberToString timestamp
                   ++ ".png"))] /\
    store' = {| isGenerating := true;
                generatedCards := generatedCards store;
                error := None |} /\
    page' = {| Page.isModalOpen := false;
               Page.clothingImage := Some clothing;
               Page.modelImage := Some model |}.
Proof.
  unfold Page.handleGenerateWithAI_begin.
  destruct (Page.clothingImage page) as [clothing|] eqn:Hc; [|discriminate].
  destruct (Page.modelImage page) as [model|] eqn:Hm; [|discriminate].
  unfold generateProductCard_begin.
  destruct (validate (Some clothing) (Some model)) as [[c m] | e] eqn:Hv;
    [|discriminate].
  apply validate_fulfilled_iff in Hv.
  destruct Hv as [[= <-] [[= <-] [Htc Htm]]].
  intros [= <- <- <-]. exists clothing, model.
  repeat split; try assumption.
  unfold Page.setIsModalOpen. simpl. now rewrite Hc, Hm.
Qed.

Lemma handleGenerateWithAI_request_witness :
  exists clothing model,
    body (requestOf shirtPhoto modelPhoto
            (Some "product_listing_1700000000123.png"))
    = [("clothing_image", FileValue clothing);
       ("model_image", FileValue model);
       ("output_filename",
        TextValue "product_listing_1700000000123.png")].
Proof.
  destruct (handleGenerateWithAI_request 1700000000123
              {| Page.isModalOpen := true;
                 Page.clothingImage := Some shirtPhoto;
                 Page.modelImage := Some modelPhoto |}
              {| Page.isModalOpen := false;
                 Page.clothingImage := Some shirtPhoto;
                 Page.modelImage := Some modelPhoto |}
              usedStore
              {| isGenerating := true;
                 generatedCards := generatedCards usedStore;
                 error := None |}
              (requestOf shirtPhoto modelPhoto
                 (Some "product_listing_1700000000123.png")) eq_refl)
    as [clothing [model [_ [_ [_ [_ [Hbody _]]]]]]].
  now exists clothing, model.
Defined.

(** X19: the view is never blank and never contradicts itself: the card
    grid, the loading panel or the empty state is shown; the empty state
    is shown with neither of the other two; the clear button is shown
    exactly with the card grid. *)
Theorem view_panels (store : ProductStore) :
  (Page.showsCards store || Page.showsLoading store
   || Page.showsEmptyState store)%bool = true /\
  (Page.showsEmptyState store = true ->
   Page.showsCards store = false /\ Page.showsLoading store = false) /\
  Page.showsClearButton store = Page.showsCards store.
Proof.
  unfold Page.showsCards, Page.showsLoading, Page.showsEmptyState,
    Page.showsClearButton.
  destruct (generatedCards store), (isGenerating store); simpl;
    repeat split; try reflexivity; discriminate.
Qed.

(** X20: a failed call is shown in the error panel unless its error has
    the empty message: then the store holds the empty string and the
    panel stays hidden. *)
Theorem error_panel_hidden_iff_empty_message
    (now : Z) (random : Q) (fetched : Settled Response)
    (state : ProductStore) (e : Thrown) :
  generateProductListing fetched = Rejected e ->
  (Page.showsError (generateProductCard_settle now random fetched state)
   = false <-> e = JsError "").
Proof.
  intros Hrejected.
  rewrite (generateProductCard_settle_rejected _ _ _ _ _ Hrejected).
  unfold Page.showsError. simpl. destruct e as [message|]; simpl.
  - rewrite negb_false_iff, String.eqb_eq.
    split; [now intros -> | now intros [= ->]].
  - split; discriminate.
Qed.

Lemma error_panel_hidden_iff_empty_message_witness :
  Page.showsError
    (generateProductCard_settle 1700000000123 (1 # 2)
       (Rejected (JsError "")) usedStore) = false.
Proof.
  apply (error_panel_hidden_iff_empty_message 1700000000123 (1 # 2)
           (Rejected (JsError "")) usedStore (JsError "") eq_refl).
  reflexivity.
Defined.

(** ** The page as a whole *)

Section Reachability.

(** Every event leaves the cards alone, empties them, or is the
    settlement of a call. *)
Lemma react_cards (event : Page.Event) (ui : Page.UI) :
  generatedCards (Page.store (Page.react event ui))
  = generatedCards (Page.store ui) \/
  generatedCards (Page.store (Page.react event ui)) = [] \/
  exists now random apiResponse,
    generatedCards (Page.store (Page.react event ui))
    = mapApiResponseToProductCard now random apiResponse
      :: generatedCards (Page.store ui).
Proof.
  destruct event as [open | files | files | timestamp | | | index now random fetched];
    simpl; try (now left).
  - unfold Page.handleGenerateWithAI_begin.
    destruct (Page.clothingImage (Page.page ui)); [|now left].
    destruct (Page.modelImage (Page.page ui)); [|now left].
    unfold generateProductCard_begin.
    destruct (validate (Some t) (Some t0)) as [[c m] | e]; now left.
  - right. now left.
  - destruct (generateProductCard_settle_cases now random fetched
                (Page.store ui)) as [_ [[api [_ [_ Hcards]]] | [msg [_ Hcards]]]].
    + right. right. now exists now, random, api.
    + now left.
Qed.

Lemma removeAt_single {A : Type} (index : nat) (x : A) :
  (index < 1)%nat -> Page.removeAt index [x] = [].
Proof. intros H. destruct index; [reflexivity | lia]. Qed.

End Reachability.

(** X21: in every state the page can reach, at most one API call is
    pending, [isGenerating] is true exactly while a call is pending, and
    the store holds no error during that time: the disabled generate
    button keeps calls from overlapping. *)
Theorem page_calls_never_overlap (ui : Page.UI) :
  Page.Reachable ui ->
  (List.length (Page.inFlight ui) <= 1)%nat /\
  (isGenerating (Page.store ui) = true <-> Page.inFlight ui <> []) /\
  (isGenerating (Page.store ui) = true -> error (Page.store ui) = None).
Proof.
  induction 1 as [|ui event Hreach [Hlen [Hflag Herr]] Hoffered].
  - simpl. split; [lia|]. split; [|discriminate].
    split; [discriminate | intros H; now destruct H].
  - destruct event as [open | files | files | timestamp | | |
                       index now random fetched]; simpl in *.
    + exact (conj Hlen (conj Hflag Herr)).
    + exact (conj Hlen (conj Hflag Herr)).
    + exact (conj Hlen (conj Hflag Herr)).
    + apply andb_true_iff in Hoffered. destruct Hoffered as [_ Henabled].
      unfold Page.generateDisabled in Henabled.
      apply negb_true_iff in Henabled.
      apply orb_false_iff in Henabled. destruct Henabled as [Himages Hidle].
      apply orb_false_iff in Himages. destruct Himages as [Hc Hm].
      assert (Hnone : Page.inFlight ui = []).
      { destruct (Page.inFlight ui) as [|r rest]; [reflexivity|].
        assert (Hgen : isGenerating (Page.store ui) = true)
          by (apply Hflag; discriminate).
        congruence. }
      unfold Page.handleGenerateWithAI_begin.
      destruct (Page.clothingImage (Page.page ui)) as [clothing|];
        [|discriminate Hc].
      destruct (Page.modelImage (Page.page ui)) as [model|];
        [|discriminate Hm].
      unfold generateProductCard_begin.
      destruct (validate (Some clothing) (Some model)) as [[c m] | e];
        simpl; rewrite Hnone; simpl.
      * split; [lia|]. split; [|reflexivity].
        split; [discriminate | reflexivity].
      * split; [lia|]. split; [|discriminate].
        split; [discriminate | intros H; now destruct H].
    + split; [exact Hlen|]. split; [exact Hflag | reflexivity].
    + split; [exact Hlen|]. split; [exact Hflag | reflexivity].
    + apply Nat.ltb_lt in Hoffered.
      destruct (Page.inFlight ui) as [|r [|r' rest]];
        simpl in Hoffered, Hlen; try lia.
      rewrite (removeAt_single index r Hoffered).
      destruct (generateProductCard_settle_cases now random fetched
                  (Page.store ui)) as [Hdone _].
      simpl in Hdone. rewrite Hdone.
      split; [simpl; lia|]. split; [|discriminate].
      split; [discriminate | intros H; now destruct H].
Qed.

Lemma page_calls_never_overlap_witness :
  let ui :=
    Page.react (Page.ClickGenerate 1700000000123)
      (Page.react (Page.ChooseModel (Some [modelPhoto]))
         (Page.react (Page.ChooseClothing (Some [shirtPhoto]))
            (Page.react (Page.OpenChange true) Page.start))) in
  Page.inFlight ui
  = [requestOf shirtPhoto modelPhoto
       (Some "product_listing_1700000000123.png")] /\
  isGenerating (Page.store ui) = true /\
  error (Page.store ui) = None.
Proof.
  intros ui.
  assert (Hreach : Page.Reachable ui).
  { subst ui. repeat (apply Page.ReachStep; [|reflexivity]).
    apply Page.ReachStart. }
  destruct (page_calls_never_overlap ui Hreach) as [_ [Hflag Herr]].
  split; [reflexivity|].
  assert (Hgen : isGenerating (Page.store ui) = true)
    by (apply Hflag; discriminate).
  split; [exact Hgen | exact (Herr Hgen)].
Defined.

(** X22: in every state the page can reach, each card shows the image the
    service generated: its two image fields are the same address on
    [http://localhost:8000], and the placeholder of the [||] is never
    taken. *)
Theorem page_card_images (ui : Page.UI) :
  Page.Reachable ui ->
  Forall (fun card =>
            Page.imageSrc card = ProductCard.modelImage card /\
            ProductCard.productImage card = ProductCard.modelImage card /\
            JS.startsWith (ProductCard.modelImage card)
              "http://localhost:8000" = true)
         (generatedCards (Page.store ui)).
Proof.
  induction 1 as [|ui event Hreach IH Hoffered].
  - constructor.
  - destruct (react_cards event ui)
      as [-> | [-> | [now [random [api ->]]]]].
    + exact IH.
    + constructor.
    + constructor; [|exact IH]. split; [reflexivity|].
      split; [reflexivity|]. apply startsWith_iff.
      now exists (ApiResponse.generated_image_url api).
Qed.

Lemma page_card_images_witness :
  let ui :=
    Page.react (Page.Settle 0 1700000000500 (1 # 2)
                  (serviceUp (requestOf shirtPhoto modelPhoto
                     (Some "product_listing_1700000000123.png"))))
      (Page.react (Page.ClickGenerate 1700000000123)
         (Page.react (Page.ChooseModel (Some [modelPhoto]))
            (Page.react (Page.ChooseClothing (Some [shirtPhoto]))
               (Page.react (Page.OpenChange true) Page.start)))) in
  List.length (generatedCards (Page.store ui)) = 1%nat /\
  Forall (fun card =>
            Page.imageSrc card = ProductCard.modelImage card /\
            ProductCard.productImage card = ProductCard.modelImage card /\
            JS.startsWith (ProductCard.modelImage card)
              "http://localhost:8000" = true)
         (generatedCards (Page.store ui)).
Proof.
  intros ui.
  assert (Hreach : Page.Reachable ui).
  { subst ui. repeat (apply Page.ReachStep; [|reflexivity]).
    apply Page.ReachStart. }
  split; [reflexivity | exact (page_card_images ui Hreach)].
Defined.

(** X23: the generate button cannot be used twice in a row: right after
    a click on it, and right after a call has settled, a click on it is
    not possible (the dialog is closed, a call is pending, or the uploads
    have been cleared). *)
Theorem generate_not_offered_again
    (ui : Page.UI) (event : Page.Event) (timestamp : Z) :
  (exists clicked, event = Page.ClickGenerate clicked) \/
  (exists index now random fetched,
     event = Page.Settle index now random fetched) ->
  Page.offered event ui = true ->
  Page.offered (Page.ClickGenerate timestamp) (Page.react event ui) = false.
Proof.
  intros [[clicked ->] | [index [now [random [fetched ->]]]]] Hoffered.
  - simpl in Hoffered. apply andb_true_iff in Hoffered.
    destruct Hoffered as [_ Henabled].
    unfold Page.generateDisabled in Henabled.
    apply negb_true_iff, orb_false_iff in Henabled.
    destruct Henabled as [Himages _].
    apply orb_false_iff in Himages. destruct Himages as [Hc Hm].
    simpl. unfold Page.handleGenerateWithAI_begin.
    destruct (Page.clothingImage (Page.page ui)) as [clothing|];
      [|discriminate Hc].
    destruct (Page.modelImage (Page.page ui)) as [model|];
      [|discriminate Hm].
    destruct (generateProductCard_begin (Some clothing) (Some model)
                (Some ("product_listing_" ++ JS.numberToString clicked
                       ++ ".png"))
                (setError None (Page.store ui))); reflexivity.
  - simpl. apply andb_false_r.
Qed.

Lemma generate_not_offered_again_witness :
  let ready :=
    Page.react (Page.ChooseModel (Some [modelPhoto]))
      (Page.react (Page.ChooseClothing (Some [shirtPhoto]))
         (Page.react (Page.OpenChange true) Page.start)) in
  Page.offered (Page.ClickGenerate 1700000000123) ready = true /\
  Page.offered (Page.ClickGenerate 1700000000124)
    (Page.react (Page.ClickGenerate 1700000000123) ready) = false.
Proof.
  intros ready. split; [reflexivity|].
  apply (generate_not_offered_again ready
           (Page.ClickGenerate 1700000000123) 1700000000124).
  - left. now exists 1700000000123.
  - reflexivity.
Defined.

(** X24: in every state the page can reach, each card is consistent with
    its own description and tags: its name is the name derived from its
    description, its price matches the price pattern and has a numeric
    part of at least 25. *)
Theorem page_cards_consistent (ui : Page.UI) :
  Page.Reachable ui ->
  Forall (fun card =>
            ProductCard.productName card
            = extractProductName (ProductCard.description card) /\
            matchesPricePattern (ProductCard.price card) = true /\
            exists n, numericPart (ProductCard.price card) = Some n /\
                      25 <= n)
         (generatedCards (Page.store ui)).
Proof.
  induction 1 as [|ui event Hreach IH Hoffered].
  - constructor.
  - destruct (react_cards event ui)
      as [-> | [-> | [now [random [api ->]]]]].
    + exact IH.
    + constructor.
    + constructor; [|exact IH]. split; [reflexivity|].
      destruct (generatePrice_numeric random
                  (ClothingAnalysis.description
                     (ApiResponse.clothing_analysis api))
                  (ClothingAnalysis.tags
                     (ApiResponse.clothing_analysis api)))
        as [Hnum Hmatch].
      split; [exact Hmatch|]. eexists. split; [exact Hnum | lia].
Qed.

Lemma page_cards_consistent_witness :
  let ui :=
    Page.react (Page.Settle 0 1700000000500 (1 # 2)
                  (serviceUp (requestOf shirtPhoto modelPhoto
                     (Some "product_listing_1700000000123.png"))))
      (Page.react (Page.ClickGenerate 1700000000123)
         (Page.react (Page.ChooseModel (Some [modelPhoto]))
            (Page.react (Page.ChooseClothing (Some [shirtPhoto]))
               (Page.react (Page.OpenChange true) Page.start)))) in
  map ProductCard.price (generatedCards (Page.store ui)) = ["$135.00"] /\
  Forall (fun card =>
            ProductCard.productName card
            = extractProductName (ProductCard.description card) /\
            matchesPricePattern (ProductCard.price card) = true /\
            exists n, numericPart (ProductCard.price card) = Some n /\
                      25 <= n)
         (generatedCards (Page.store ui)).
Proof.
  intros ui.
  assert (Hreach : Page.Reachable ui).
  { subst ui. repeat (apply Page.ReachStep; [|reflexivity]).
    apply Page.ReachStart. }
  split; [reflexivity | exact (page_cards_consistent ui Hreach)].
Defined.

(** ** Sample evaluations *)

Example extractProductName_hat :
  extractProductName "A Classic Straw HAT. With a shirt." = "Premium Straw Hat".
Proof. reflexivity. Qed.

Example extractProductName_hat_after_period :
  extractProductName "Blue cotton shirt. Comes with a hat." = "Designer Shirt".
Proof. reflexivity. Qed.

Example extractProductName_three_words :
  extractProductName "cotton trousers in navy blue. Nice." = "Cotton Trousers In".
Proof. reflexivity. Qed.

Example extractProductName_double_space :
  extractProductName "wool  socks" = "Wool  Socks".
Proof. reflexivity. Qed.

Example generatePrice_plain :
  generatePrice (1 # 2) "cotton trousers" [] = "$50.00".
Proof. reflexivity. Qed.

Example generatePrice_highest :
  generatePrice (199 # 200) "premium straw wide-brim cap"
    ["Luxury"; "Artisan"] = "$149.00".
Proof. reflexivity. Qed.

Example generatePrice_tag_is_not_searched_as_text :
  generatePrice 0 "scarf" ["luxury goods"] = "$40.00".
Proof. reflexivity. Qed.

Example clearCards_while_generating :
  clearCards {| isGenerating := true;
                generatedCards := generatedCards usedStore;
                error := Some "Failed to fetch" |}
  = {| isGenerating := true; generatedCards := []; error := None |}.
Proof. reflexivity. Qed.
